(** * To-do list: task model, task manager and list refresh of [todo_app.py]

    A shallow embedding of the non-widget logic of [src/todo_app.py]:
    the classes [Task] / [DeadlineTask], the [TaskManager] (add, delete,
    toggle, save, load) and the computations of [TodoApp._add_task] and
    [TodoApp._refresh_list] (validation, id assignment, search filter,
    status label, progress figures).

    Conventions of the embedding.
    - Python [int] is [Z]; [bool] is [bool]; [str] is [string], read as
      ASCII text: [lower], [strip] and the digit classes of [strptime]
      are the ASCII restrictions of the Python ones, characters above
      127 are left alone.
    - Library calls are modelled by their documented behaviour:
      [datetime.strptime(_, "%d-%m-%Y")], [datetime.__sub__],
      [timedelta.days], [strftime("%Y-%m-%d")], float division and
      multiplication (IEEE binary64, through [SpecFloat]), [int(float)].
    - [json.dump] / [json.load] are not re-implemented: a file holds a
      JSON value, or text that [json.load] rejects, or does not exist.
    - Exceptions that leave a function are explicit results. *)

From Stdlib Require Import ZArith Lia Bool List Sorted Ascii String.
From Stdlib Require Import Floats.SpecFloat.
From stdpp Require Import gmap strings list.

Local Open Scope string_scope.
Local Open Scope Z_scope.
#[local] Set Warnings "-register-all".

(** ** Python strings (ASCII) *)

Module PyStr.

Definition code (c : ascii) : Z := Z.of_nat (nat_of_ascii c).

Definition is_upper (c : ascii) : bool := (65 <=? code c) && (code c <=? 90).

Definition lower_char (c : ascii) : ascii :=
  if is_upper c then ascii_of_nat (nat_of_ascii c + 32) else c.

(** [str.lower()] *)
Fixpoint lower (s : string) : string :=
  match s with
  | EmptyString => EmptyString
  | String c r => String (lower_char c) (lower r)
  end.

(** [str.isspace] on one ASCII character: TAB, LF, VT, FF, CR, the
    separators 0x1c-0x1f and the space. *)
Definition is_space (c : ascii) : bool :=
  ((9 <=? code c) && (code c <=? 13))
  || ((28 <=? code c) && (code c <=? 31))
  || (code c =? 32).

Fixpoint lstrip (s : string) : string :=
  match s with
  | EmptyString => EmptyString
  | String c r => if is_space c then lstrip r else s
  end.

Fixpoint rstrip (s : string) : string :=
  match s with
  | EmptyString => EmptyString
  | String c r =>
      match rstrip r with
      | EmptyString => if is_space c then EmptyString else String c EmptyString
      | r' => String c r'
      end
  end.

(** [str.strip()] *)
Definition strip (s : string) : string := rstrip (lstrip s).

(** truthiness of a string: [if s] *)
Definition truthy (s : string) : bool :=
  match s with EmptyString => false | _ => true end.

(** [x in y] for strings: [x] occurs in [y] as a contiguous block. *)
Fixpoint contains (x y : string) : bool :=
  String.prefix x y
  || match y with
     | EmptyString => false
     | String _ y' => contains x y'
     end.

(** Decimal digits of a non-negative integer, most significant first. *)
Definition digit_char (d : Z) : ascii := ascii_of_nat (Z.to_nat (48 + d)).

Fixpoint decimal_fuel (fuel : nat) (n : Z) (acc : string) : string :=
  match fuel with
  | O => acc
  | S fuel' =>
      let acc' := String (digit_char (n mod 10)) acc in
      if n <? 10 then acc' else decimal_fuel fuel' (n / 10) acc'
  end.

Definition decimal (n : Z) : string :=
  decimal_fuel (S (Z.to_nat (Z.log2 n))) n EmptyString.

Fixpoint zeros (k : nat) : string :=
  match k with O => EmptyString | S k' => String "0" (zeros k') end.

(** ["%0<width>d" % n] for [0 <= n] *)
Definition zero_pad (width : nat) (n : Z) : string :=
  let d := decimal n in
  zeros (width - String.length d) +:+ d.

End PyStr.

(** ** Calendar dates and times ([datetime]) *)

Module PyDate.

(** A naive [datetime]: proleptic Gregorian date and time of day. *)
Record datetime : Type := mkDatetime {
  year : Z; month : Z; day : Z;
  hour : Z; minute : Z; second : Z; microsecond : Z
}.

Definition is_leap (y : Z) : bool :=
  (y mod 4 =? 0) && (negb (y mod 100 =? 0) || (y mod 400 =? 0)).

Definition days_in_month (y m : Z) : Z :=
  if m =? 2 then (if is_leap y then 29 else 28)
  else if (m =? 4) || (m =? 6) || (m =? 9) || (m =? 11) then 30
  else 31.

(** number of days before January 1st of year [y] *)
Definition days_before_year (y : Z) : Z :=
  let y' := y - 1 in y' * 365 + y' / 4 - y' / 100 + y' / 400.

(** number of days in year [y] before the first day of month [m] *)
Definition days_before_month (y m : Z) : Z :=
  fold_right Z.add 0
    (map (days_in_month y) (map Z.of_nat (seq 1 (Z.to_nat (m - 1))))).

(** [date.toordinal()]: 1 for 01-01-0001 *)
Definition toordinal (d : datetime) : Z :=
  days_before_year (year d) + days_before_month (year d) (month d) + day d.

(** What the [datetime] constructor accepts. *)
Definition valid_date (y m d : Z) : bool :=
  (1 <=? y) && (y <=? 9999) && (1 <=? m) && (m <=? 12)
  && (1 <=? d) && (d <=? days_in_month y m).

Definition valid_datetime (t : datetime) : bool :=
  valid_date (year t) (month t) (day t)
  && (0 <=? hour t) && (hour t <? 24)
  && (0 <=? minute t) && (minute t <? 60)
  && (0 <=? second t) && (second t <? 60)
  && (0 <=? microsecond t) && (microsecond t <? 1000000).

(** *** [strptime] with the format ["%d-%m-%Y"]

    The format compiles to the regular expression
    [(3[0-1]|[1-2]\d|0[1-9]|[1-9]| [1-9])-(1[0-2]|0[1-9]|[1-9])-(\d\d\d\d)]
    which has to match the whole text; no group can hold a dash, so the
    text is cut at its dashes and each piece is matched on its own. The
    numbers found are then handed to the [datetime] constructor, which
    refuses year 0 and days the month does not have. Every failure is a
    [ValueError], here [None]. *)

Definition is_digit (c : ascii) : bool :=
  (48 <=? PyStr.code c) && (PyStr.code c <=? 57).

Definition digit (c : ascii) : Z := PyStr.code c - 48.

Fixpoint split_dash (s : string) : list string :=
  match s with
  | EmptyString => [EmptyString]
  | String c r =>
      if Ascii.eqb c "-" then EmptyString :: split_dash r
      else match split_dash r with
           | h :: t => String c h :: t
           | [] => [String c EmptyString]
           end
  end.

(** group [%d] *)
Definition match_d (s : string) : option Z :=
  match s with
  | String a (String b EmptyString) =>
      if Ascii.eqb a "3" && is_digit b && (digit b <=? 1) then Some (30 + digit b)
      else if is_digit a && (1 <=? digit a) && (digit a <=? 2) && is_digit b
           then Some (10 * digit a + digit b)
      else if (Ascii.eqb a "0" || Ascii.eqb a " ") && is_digit b && (1 <=? digit b)
           then Some (digit b)
      else None
  | String a EmptyString =>
      if is_digit a && (1 <=? digit a) then Some (digit a) else None
  | _ => None
  end.

(** group [%m] *)
Definition match_m (s : string) : option Z :=
  match s with
  | String a (String b EmptyString) =>
      if Ascii.eqb a "1" && is_digit b && (digit b <=? 2) then Some (10 + digit b)
      else if Ascii.eqb a "0" && is_digit b && (1 <=? digit b) then Some (digit b)
      else None
  | String a EmptyString =>
      if is_digit a && (1 <=? digit a) then Some (digit a) else None
  | _ => None
  end.

(** group [%Y] *)
Definition match_Y (s : string) : option Z :=
  match s with
  | String a (String b (String c (String d EmptyString))) =>
      if is_digit a && is_digit b && is_digit c && is_digit d
      then Some (1000 * digit a + 100 * digit b + 10 * digit c + digit d)
      else None
  | _ => None
  end.

Definition strptime_dmY (s : string) : option datetime :=
  match split_dash s with
  | [sd; sm; sy] =>
      match match_d sd, match_m sm, match_Y sy with
      | Some d, Some m, Some y =>
          if valid_date y m d then Some (mkDatetime y m d 0 0 0 0) else None
      | _, _, _ => None
      end
  | _ => None
  end.

(** [strftime("%Y-%m-%d")] (years below 1000 are padded to four digits) *)
Definition strftime_Ymd (t : datetime) : string :=
  PyStr.zero_pad 4 (year t) +:+ "-" +:+ PyStr.zero_pad 2 (month t)
  +:+ "-" +:+ PyStr.zero_pad 2 (day t).

(** *** [timedelta]

    [a - b] builds [timedelta(days, seconds, microseconds)] from the
    three differences; the constructor normalises so that
    [0 <= seconds < 86400] and [0 <= microseconds < 1000000], the sign
    being carried by [days] alone. *)

Record timedelta : Type := mkTimedelta {
  days : Z; seconds : Z; microseconds : Z
}.

Definition US_PER_DAY : Z := 86400 * 1000000.

Definition timedelta_new (d s us : Z) : timedelta :=
  let total := d * US_PER_DAY + s * 1000000 + us in
  mkTimedelta (total / US_PER_DAY)
              ((total mod US_PER_DAY) / 1000000)
              (total mod 1000000).

Definition seconds_of_day (t : datetime) : Z :=
  second t + minute t * 60 + hour t * 3600.

(** [a - b] *)
Definition sub (a b : datetime) : timedelta :=
  timedelta_new (toordinal a - toordinal b)
                (seconds_of_day a - seconds_of_day b)
                (microsecond a - microsecond b).

(** Microseconds elapsed since the start of 01-01-0001 (used to state
    properties, not by the program). *)
Definition instant (t : datetime) : Z :=
  (toordinal t - 1) * US_PER_DAY + seconds_of_day t * 1000000 + microsecond t.

End PyDate.

(** ** Python floats (IEEE binary64) *)

Module PyFloat.

Definition prec : Z := 53.
Definition emax : Z := 1024.

(** [float(n)] for an [int] *)
Definition of_int (n : Z) : spec_float := binary_normalize prec emax n 0 false.

(** [a / b] and [a * b] on floats *)
Definition div (a b : spec_float) : spec_float := SFdiv prec emax a b.
Definition mul (a b : spec_float) : spec_float := SFmul prec emax a b.

(** [n / d] for two [int]s: true division, correctly rounded. *)
Definition truediv (n d : Z) : spec_float := div (of_int n) (of_int d).

(** magnitude of a finite float, truncated to an integer *)
Definition trunc_mag (m : positive) (e : Z) : Z :=
  match e with
  | Z0 => Zpos m
  | Zpos p => Zpos m * 2 ^ Zpos p
  | Zneg p => Zpos m / 2 ^ Zpos p
  end.

(** [int(x)]: truncation toward zero. [int] of an infinity or of a NaN
    raises; the quotient of two list lengths is neither, the value 0
    given here is never used by the program. *)
Definition int (x : spec_float) : Z :=
  match x with
  | S754_zero _ => 0
  | S754_finite s m e => if s then - trunc_mag m e else trunc_mag m e
  | S754_infinity _ | S754_nan => 0
  end.

(** [round(x)]: to the nearest integer, ties to the even one. *)
Definition round (x : spec_float) : Z :=
  match x with
  | S754_finite s m e =>
      let r :=
        match e with
        | Zneg p =>
            let q := Zpos m / 2 ^ Zpos p in
            let twice_rem := 2 * (Zpos m mod 2 ^ Zpos p) in
            if twice_rem <? 2 ^ Zpos p then q
            else if 2 ^ Zpos p <? twice_rem then q + 1
            else if Z.even q then q else q + 1
        | _ => trunc_mag m e
        end in
      if s then - r else r
  | _ => 0
  end.

End PyFloat.

(** ** JSON values, as [json.load] returns them and [json.dump] takes them *)

Inductive json : Type :=
| JNull
| JBool (b : bool)
| JInt (n : Z)
| JFloat (literal : string)
| JStr (s : string)
| JList (items : list json)
| JDict (fields : gmap string json).

(** Content of the file at [TaskManager._file_path]. *)
Inductive file : Type :=
| Absent                 (* no such file: [open] raises FileNotFoundError *)
| NotJson                (* text on which [json.load] raises JSONDecodeError *)
| JsonDoc (v : json).    (* text that [json.load] reads as [v] *)

(** The disk: the file, and whether opening it for writing succeeds
    (otherwise [open] raises IOError and the file stays as it is). *)
Record disk : Type := mkDisk { content : file; writable : bool }.

(** ** The model classes *)

(** class [Task] *)
Record Task : Type := mkTask {
  _id : Z;
  _title : string;
  _description : string;
  _category : string;
  _completed : bool;
  _created_date : string
}.

(** class [DeadlineTask(Task)] *)
Record DeadlineTask : Type := mkDeadlineTask {
  super : Task;
  _deadline : string
}.

(** [Task.__init__] *)
Definition Task_init (now : PyDate.datetime)
    (task_id : Z) (title description category : string) : Task :=
  {| _id := task_id;
     _title := title;
     _description := description;
     _category := category;
     _completed := false;
     _created_date := PyDate.strftime_Ymd now |}.

(** [DeadlineTask.__init__] *)
Definition DeadlineTask_init (now : PyDate.datetime)
    (task_id : Z) (title description deadline category : string) : DeadlineTask :=
  {| super := Task_init now task_id title description category;
     _deadline := deadline |}.

(** the properties *)
Definition task_id (t : DeadlineTask) : Z := _id (super t).
Definition title (t : DeadlineTask) : string := _title (super t).
Definition description (t : DeadlineTask) : string := _description (super t).
Definition category (t : DeadlineTask) : string := _category (super t).
Definition created_date (t : DeadlineTask) : string := _created_date (super t).
Definition deadline (t : DeadlineTask) : string := _deadline t.
Definition is_completed (t : DeadlineTask) : bool := _completed (super t).

(** [Task.toggle_status] *)
Definition Task_toggle_status (t : Task) : Task :=
  {| _id := _id t;
     _title := _title t;
     _description := _description t;
     _category := _category t;
     _completed := negb (_completed t);
     _created_date := _created_date t |}.

Definition toggle_status (t : DeadlineTask) : DeadlineTask :=
  {| super := Task_toggle_status (super t); _deadline := _deadline t |}.

(** [Task.to_dict] *)
Definition Task_to_dict (t : Task) : gmap string json :=
  <["type" := JStr "Task"]>
  (<["created_date" := JStr (_created_date t)]>
  (<["completed" := JBool (_completed t)]>
  (<["category" := JStr (_category t)]>
  (<["description" := JStr (_description t)]>
  (<["title" := JStr (_title t)]>
  (<["id" := JInt (_id t)]> ∅)))))).

(** [DeadlineTask.to_dict] *)
Definition to_dict (t : DeadlineTask) : gmap string json :=
  let data := Task_to_dict (super t) in
  let data := <["deadline" := JStr (_deadline t)]> data in
  <["type" := JStr "DeadlineTask"]> data.

(** ** What [load_tasks] builds

    [load_tasks] passes whatever the file holds to the constructor, which
    stores it unchecked. The objects it builds are therefore described
    with JSON values in their attributes; [created_date] is the one
    attribute the constructor computes itself. *)

Record LoadedTask : Type := mkLoadedTask {
  l_id : json;
  l_title : json;
  l_description : json;
  l_deadline : json;
  l_category : json;
  l_completed : json;
  l_created_date : string
}.

(** The object [load_tasks] must build to reproduce a typed task [t] when
    loading at time [now]. *)
Definition as_loaded (now : PyDate.datetime) (t : DeadlineTask) : LoadedTask :=
  {| l_id := JInt (task_id t);
     l_title := JStr (title t);
     l_description := JStr (description t);
     l_deadline := JStr (deadline t);
     l_category := JStr (category t);
     l_completed := JBool (is_completed t);
     l_created_date := PyDate.strftime_Ymd now |}.

(** The typed task a loaded object stands for, when every attribute has
    the type the class annotates. *)
Definition typed (o : LoadedTask) : option DeadlineTask :=
  match l_id o, l_title o, l_description o, l_deadline o, l_category o, l_completed o with
  | JInt i, JStr t, JStr d, JStr dl, JStr c, JBool b =>
      Some {| super := {| _id := i; _title := t; _description := d; _category := c;
                          _completed := b; _created_date := l_created_date o |};
              _deadline := dl |}
  | _, _, _, _, _, _ => None
  end.

(** Exceptions that [load_tasks] does not catch. *)
Inductive exn : Type :=
| KeyError (key : string)
| TypeError.

Inductive load_result : Type :=
| Loaded (tasks : list LoadedTask)
| Raised (e : exn) (tasks_so_far : list LoadedTask).

(** [item[key]] with a string key *)
Definition getitem (item : json) (key : string) : exn + json :=
  match item with
  | JDict m =>
      match m !! key with
      | Some v => inr v
      | None => inl (KeyError key)
      end
  | _ => inl TypeError
  end.

(** [m.get(key, default)] *)
Definition dict_get (m : gmap string json) (key : string) (default : json) : json :=
  match m !! key with
  | Some v => v
  | None => default
  end.

(** One turn of the loop of [load_tasks]: the task built from [item]. *)
Definition load_item (now : PyDate.datetime) (item : json) : exn + LoadedTask :=
  match getitem item "id" with
  | inl e => inl e
  | inr vid =>
  match getitem item "title" with
  | inl e => inl e
  | inr vtitle =>
  match getitem item "description" with
  | inl e => inl e
  | inr vdesc =>
  match item with
  | JDict m =>
      inr {| l_id := vid;
             l_title := vtitle;
             l_description := vdesc;
             l_deadline := dict_get m "deadline" (JStr "");
             l_category := dict_get m "category" (JStr "Umum");
             l_completed := dict_get m "completed" (JBool false);
             l_created_date := PyDate.strftime_Ymd now |}
  | _ => inl TypeError
  end end end end.

(** [for item in data: ...], appending to [acc] (the list [self._tasks]) *)
Fixpoint load_loop (now : PyDate.datetime) (items : list json)
    (acc : list LoadedTask) : load_result :=
  match items with
  | [] => Loaded acc
  | item :: rest =>
      match load_item now item with
      | inl e => Raised e acc
      | inr task => load_loop now rest (acc ++ [task])
      end
  end.

(** What [for item in data] iterates over: the elements of a list, the
    keys of a dict, the characters of a string; anything else is not
    iterable. (A dict is iterated in insertion order, which the map does
    not record; every key is a string and fails alike in the loop body.) *)
Definition iterate (data : json) : exn + list json :=
  match data with
  | JList l => inr l
  | JDict m => inr (map (fun kv => JStr (fst kv)) (map_to_list m))
  | JStr s => inr (map (fun c => JStr (String c EmptyString)) (list_ascii_of_string s))
  | JNull | JBool _ | JInt _ | JFloat _ => inl TypeError
  end.

(** [TaskManager.load_tasks], called by the constructor on the empty
    list *)
Definition load_tasks (now : PyDate.datetime) (d : disk) : load_result :=
  match content d with
  | Absent => Loaded []            (* except FileNotFoundError: pass *)
  | NotJson => Loaded []           (* except json.JSONDecodeError: print *)
  | JsonDoc data =>
      match iterate data with
      | inl e => Raised e []
      | inr items => load_loop now items []
      end
  end.

(** ** The task manager *)

Record TaskManager : Type := mkTaskManager {
  _tasks : list DeadlineTask;
  _file : disk
}.

(** [TaskManager.save_tasks] *)
Definition save_tasks (m : TaskManager) : TaskManager :=
  if writable (_file m)
  then {| _tasks := _tasks m;
          _file := {| content := JsonDoc (JList (map (fun t => JDict (to_dict t)) (_tasks m)));
                      writable := true |} |}
  else m.                          (* except IOError: print *)

(** [TaskManager.add_task] *)
Definition add_task (m : TaskManager) (task : DeadlineTask) : TaskManager :=
  save_tasks {| _tasks := _tasks m ++ [task]; _file := _file m |}.

Definition len {A} (l : list A) : Z := Z.of_nat (length l).

(** [TaskManager.delete_task] *)
Definition delete_task (m : TaskManager) (index : Z) : TaskManager :=
  if (0 <=? index) && (index <? len (_tasks m))
  then save_tasks {| _tasks := delete (Z.to_nat index) (_tasks m); _file := _file m |}
  else m.

(** [TaskManager.toggle_task] *)
Definition toggle_task (m : TaskManager) (index : Z) : TaskManager :=
  if (0 <=? index) && (index <? len (_tasks m))
  then save_tasks {| _tasks := alter toggle_status (Z.to_nat index) (_tasks m);
                     _file := _file m |}
  else m.

(** ** The application: [TodoApp] *)

(** The message boxes [_add_task] can show. *)
Inductive messagebox : Type :=
| showwarning (caption message : string)
| showinfo (caption message : string)
| showerror (caption message : string).

(** [max(l, default=d)] *)
Definition py_max (l : list Z) (default : Z) : Z :=
  match l with
  | [] => default
  | x :: rest => fold_left Z.max rest x
  end.

(** [max([t.task_id for t in self.manager._tasks], default=0) + 1] *)
Definition next_task_id (tasks : list DeadlineTask) : Z :=
  py_max (map task_id tasks) 0 + 1.

Definition newline : string := String (ascii_of_nat 10) EmptyString.

(** [TodoApp._add_task]: the four arguments are the contents of the
    title, description and deadline entries and of the category box.
    Returns the message box shown and the manager afterwards. (The
    handler [except Exception] has nothing to catch: building the task
    and adding it raise nothing, [save_tasks] handles its own IOError.) *)
Definition _add_task (now : PyDate.datetime) (m : TaskManager)
    (title_entry desc_entry category_cb deadline_entry : string)
    : messagebox * TaskManager :=
  let title := PyStr.strip title_entry in
  let description := PyStr.strip desc_entry in
  let category := category_cb in
  let deadline := PyStr.strip deadline_entry in
  if negb (PyStr.truthy title) then
    (showwarning "Input Error" "Judul task tidak boleh kosong!", m)
  else if negb (PyStr.truthy deadline) then
    (showwarning "Input Error" "Deadline tidak boleh kosong!", m)
  else
    match PyDate.strptime_dmY deadline with
    | None =>
        (showwarning "Format Error"
           ("Format deadline harus DD-MM-YYYY" +:+ newline +:+ "Contoh: 25-12-2026"), m)
    | Some _ =>
        let task_id := next_task_id (_tasks m) in
        let task := DeadlineTask_init now task_id title description deadline category in
        (showinfo "Success" ("Task '" +:+ title +:+ "' berhasil ditambahkan!"),
         add_task m task)
    end.

(** Status column of [_refresh_list]. *)
Inductive status_text : Type :=
| Selesai      (* completed *)
| Mendesak     (* urgent *)
| Tertunda.    (* pending *)

Definition status_of (now : PyDate.datetime) (task : DeadlineTask) : status_text :=
  if is_completed task then Selesai
  else
    match PyDate.strptime_dmY (deadline task) with
    | Some deadline_date =>
        let days_left := PyDate.days (PyDate.sub deadline_date now) in
        if days_left <? 3 then Mendesak else Tertunda
    | None => Tertunda               (* bare except *)
    end.

(** A row inserted in the tree: [iid] is the position of the task in
    [manager.tasks]. *)
Record row : Type := mkRow {
  iid : Z;
  row_task : DeadlineTask;
  row_status : status_text
}.

Definition combined_text (task : DeadlineTask) : string :=
  PyStr.lower (title task +:+ " " +:+ description task +:+ " " +:+ category task).

(** The loop [for idx, task in enumerate(self.manager.tasks)], from
    position [idx] on; [query] is the search text already stripped and
    lowered. *)
Fixpoint populate (now : PyDate.datetime) (query : string) (idx : Z)
    (tasks : list DeadlineTask) : list row :=
  match tasks with
  | [] => []
  | task :: rest =>
      if PyStr.truthy query && negb (PyStr.contains query (combined_text task))
      then populate now query (idx + 1) rest                    (* continue *)
      else mkRow idx task (status_of now task) :: populate now query (idx + 1) rest
  end.

(** Rows shown by [_refresh_list] for the content [search_var] of the
    search box. *)
Definition refresh_rows (now : PyDate.datetime) (search_var : string)
    (tasks : list DeadlineTask) : list row :=
  let query := PyStr.lower (PyStr.strip search_var) in
  populate now query 0 tasks.

(** The figures of the status bar. *)
Record progress : Type := mkProgress {
  total : Z;
  done : Z;
  pending : Z;
  percentage : Z
}.

(** [sum(1 for t in tasks if t.is_completed())] *)
Fixpoint count_done (tasks : list DeadlineTask) : Z :=
  match tasks with
  | [] => 0
  | t :: rest => (if is_completed t then 1 else 0) + count_done rest
  end.

(** [int((done / total * 100)) if total > 0 else 0] *)
Definition percentage_of (done total : Z) : Z :=
  if 0 <? total
  then PyFloat.int (PyFloat.mul (PyFloat.truediv done total) (PyFloat.of_int 100))
  else 0.

Definition refresh_progress (tasks : list DeadlineTask) : progress :=
  let total := len tasks in
  let done := count_done tasks in
  let pending := total - done in
  let percentage := percentage_of done total in
  mkProgress total done pending percentage.

(** ** Sequences of additions and deletions *)

Inductive op : Type :=
| OpAdd (now : PyDate.datetime) (title_entry desc_entry category_cb deadline_entry : string)
| OpDelete (index : Z).

Definition step (m : TaskManager) (o : op) : TaskManager :=
  match o with
  | OpAdd now t d c dl => snd (_add_task now m t d c dl)
  | OpDelete index => delete_task m index
  end.

Definition run (ops : list op) (m : TaskManager) : TaskManager :=
  fold_left step ops m.

(** What happens to ids along a run: which id a step gives to a new task,
    which id it takes out of the store. *)
Inductive event : Type :=
| Assigned (id : Z)
| Removed (id : Z).

Definition events_of (m : TaskManager) (o : op) : list event :=
  match o with
  | OpAdd now t d c dl =>
      if len (_tasks (step m o)) =? len (_tasks m) then []
      else [Assigned (next_task_id (_tasks m))]
  | OpDelete index =>
      if (0 <=? index) && (index <? len (_tasks m))
      then match _tasks m !! Z.to_nat index with
           | Some t => [Removed (task_id t)]
           | None => []
           end
      else []
  end.

Fixpoint trace (ops : list op) (m : TaskManager) : list event :=
  match ops with
  | [] => []
  | o :: rest => events_of m o ++ trace rest (step m o)
  end.

(** The store of a first session: no task, no file yet. *)
Definition empty_manager (w : bool) : TaskManager :=
  {| _tasks := []; _file := {| content := Absent; writable := w |} |}.

(** ** Statements of the specification kept for comparison

    These three definitions follow the wording of the specification, not
    the program. *)

(** "at least one of title, description, or category contains x
    case-insensitively" *)
Definition some_field_contains (x : string) (t : DeadlineTask) : bool :=
  PyStr.contains (PyStr.lower x) (PyStr.lower (title t))
  || PyStr.contains (PyStr.lower x) (PyStr.lower (description t))
  || PyStr.contains (PyStr.lower x) (PyStr.lower (category t)).

(** "percent = round(done / total * 100) if total > 0 else 0" *)
Definition rounded_percentage (done total : Z) : Z :=
  if 0 <? total
  then PyFloat.round (PyFloat.mul (PyFloat.truediv done total) (PyFloat.of_int 100))
  else 0.

(** "title is empty, deadline is empty, or deadline does not parse as a
    valid calendar date" *)
Definition invalid_input (title deadline : string) : Prop :=
  title = "" \/ deadline = "" \/ PyDate.strptime_dmY deadline = None.

(** "an id that has been assigned and then removed by delete is never
    assigned again" *)
Definition never_reassigned (tr : list event) : Prop :=
  forall (x : Z) (before between after : list event),
    tr = (before ++ Removed x :: between ++ Assigned x :: after)%list -> False.

(** The test that lets a task through the search filter, for the
    prepared text [q]: the negation of the condition of [continue]. *)
Definition passes (q : string) (t : DeadlineTask) : bool :=
  negb (PyStr.truthy q) || PyStr.contains q (combined_text t).

(** Position and task of each row. *)
Definition shown (rows : list row) : list (Z * DeadlineTask) :=
  map (fun r => (iid r, row_task r)) rows.

(** A clock reading used in the examples: 4 November 2026, 10:00. *)
Definition now0 : PyDate.datetime := PyDate.mkDatetime 2026 11 4 10 0 0 0.

(** All pairs [(done, total)] with [1 <= total <= n] and
    [0 <= done <= total]. *)
Definition done_total_pairs (n : nat) : list (Z * Z) :=
  flat_map (fun t => map (fun d => (Z.of_nat d, Z.of_nat t)) (seq 0 (S t))) (seq 1 n).

(** The truncated float is the exact integer part of [100 * done / total]
    or one below it. *)
Definition near_exact (p : Z * Z) : bool :=
  let exact := 100 * fst p / snd p in
  let shown := percentage_of (fst p) (snd p) in
  (shown =? exact) || (shown =? exact - 1).

(** The invariant of the id scheme: ids grow along the list and are
    positive. *)
Definition ids_ok (m : TaskManager) : Prop :=
  StronglySorted Z.lt (map task_id (_tasks m))
  /\ Forall (fun i => 1 <= i) (map task_id (_tasks m)).

(** Two tasks used in the examples. *)
Definition task_a : DeadlineTask :=
  DeadlineTask_init now0 1 "Belajar PBO" "bab 3" "25-12-2026" "Kuliah".
Definition task_b : DeadlineTask :=
  toggle_status (DeadlineTask_init now0 2 "Beli susu" "" "05-11-2026" "Umum").

(** A record as [load_tasks] sees it once the keys it never reads are
    taken out. *)
Definition without_stamp (item : json) : json :=
  match item with
  | JDict m => JDict (delete "created_date" (delete "type" m))
  | _ => item
  end.

(** The tasks [load_tasks] has appended when it returns or raises. *)
Definition appended (r : load_result) : list LoadedTask :=
  match r with
  | Loaded ts => ts
  | Raised _ ts => ts
  end.

(** A file of well-formed JSON whose only record has no ["id"]. *)
Definition file_without_id : disk :=
  mkDisk (JsonDoc (JList [JDict (<["title" := JStr "a"]>
                                (<["description" := JStr "b"]> ∅))])) true.

(** ** Further parts of the program: editing, the handlers, categories *)

(** [l[index]] on a list of length [n]: a negative index counts from the
    end; outside [-n, n) the access raises IndexError, here [None]. *)
Definition py_index (n index : Z) : option nat :=
  if (0 <=? index) && (index <? n) then Some (Z.to_nat index)
  else if (- n <=? index) && (index <? 0) then Some (Z.to_nat (n + index))
  else None.

(** The three assignments of [save_changes] to the task being edited. *)
Definition edit_fields (title_entry desc_entry deadline_entry : string)
    (t : DeadlineTask) : DeadlineTask :=
  {| super := {| _id := _id (super t);
                 _title := PyStr.strip title_entry;
                 _description := PyStr.strip desc_entry;
                 _category := _category (super t);
                 _completed := _completed (super t);
                 _created_date := _created_date (super t) |};
     _deadline := PyStr.strip deadline_entry |}.

(** [TodoApp._edit_task] with the selected row [index], followed by
    [save_changes] with the contents of the three entries of the dialog.
    [None]: [self.manager.tasks[index]] raised IndexError, before
    anything was changed. The task edited is the object in the list, so
    the list sees the change. *)
Definition _edit_task (m : TaskManager) (index : Z)
    (title_entry desc_entry deadline_entry : string) : option TaskManager :=
  match py_index (len (_tasks m)) index with
  | None => None
  | Some i =>
      Some (save_tasks
              {| _tasks := alter (edit_fields title_entry desc_entry deadline_entry) i (_tasks m);
                 _file := _file m |})
  end.

(** [TodoApp._toggle_task] with the selected row [index]. *)
Definition _toggle_task (m : TaskManager) (index : Z) : TaskManager :=
  toggle_task m index.

(** [TodoApp._delete_task] with the selected row [index]; [confirmed] is
    the answer to the yes/no box. [None]: [self.manager.tasks[index]]
    raised IndexError. *)
Definition _delete_task (m : TaskManager) (index : Z) (confirmed : bool)
    : option TaskManager :=
  match py_index (len (_tasks m)) index with
  | None => None
  | Some _ => Some (if confirmed then delete_task m index else m)
  end.

(** What the user can do in a session. *)
Inductive action : Type :=
| ActAdd (now : PyDate.datetime) (title_entry desc_entry category_cb deadline_entry : string)
| ActDelete (index : Z) (confirmed : bool)
| ActToggle (index : Z)
| ActEdit (index : Z) (title_entry desc_entry deadline_entry : string).

(** The manager after an action; a handler that raises IndexError has
    changed nothing. *)
Definition perform (m : TaskManager) (a : action) : TaskManager :=
  match a with
  | ActAdd now t d c dl => snd (_add_task now m t d c dl)
  | ActDelete index confirmed => default m (_delete_task m index confirmed)
  | ActToggle index => _toggle_task m index
  | ActEdit index t d dl => default m (_edit_task m index t d dl)
  end.

Definition session (acts : list action) (m : TaskManager) : TaskManager :=
  fold_left perform acts m.

Definition is_edit (a : action) : bool :=
  match a with ActEdit _ _ _ _ => true | _ => false end.

(** What [_add_task] checks before it creates a task. *)
Definition well_formed (t : DeadlineTask) : Prop :=
  title t <> "" /\ PyDate.strptime_dmY (deadline t) <> None.

(** The file holds what is in memory: loading it gives the tasks of the
    manager. *)
Definition in_sync (now : PyDate.datetime) (m : TaskManager) : Prop :=
  load_tasks now (_file m) = Loaded (map (as_loaded now) (_tasks m)).

(** The text the calendar of [_show_calendar] puts in the deadline entry
    for the day picked, with its [date_pattern='dd-mm-yyyy']. *)
Definition calendar_text (y m d : Z) : string :=
  PyStr.zero_pad 2 d +:+ "-" +:+ PyStr.zero_pad 2 m +:+ "-" +:+ PyStr.zero_pad 4 y.

Fixpoint no_dash (s : string) : bool :=
  match s with
  | EmptyString => true
  | String c r => negb (Ascii.eqb c "-") && no_dash r
  end.

(** The integers [lo], [lo + 1], ..., [lo + n - 1]. *)
Definition Zrange (lo : Z) (n : nat) : list Z :=
  map (fun k => lo + Z.of_nat k) (seq 0 n).

(** class [Category]. Tasks define no [__eq__], so [in] and
    [list.remove] compare task objects by identity: the list of a
    category is described by the identities of the objects it holds. *)
Module Category.

Definition obj : Type := positive.

Record t : Type := mk { _name : string; _tasks : list obj }.

(** [Category.__init__] *)
Definition init (name : string) : t := {| _name := name; _tasks := [] |}.

(** [task in l] *)
Definition mem (task : obj) (l : list obj) : bool :=
  existsb (Pos.eqb task) l.

(** [l.remove(task)] for a [task] that is in [l]: the first occurrence
    goes. *)
Fixpoint remove_first (task : obj) (l : list obj) : list obj :=
  match l with
  | [] => []
  | x :: rest => if Pos.eqb task x then rest else x :: remove_first task rest
  end.

(** [Category.add_task] *)
Definition add_task (c : t) (task : obj) : t :=
  if negb (mem task (_tasks c))
  then {| _name := _name c; _tasks := _tasks c ++ [task] |}
  else c.

(** [Category.remove_task] *)
Definition remove_task (c : t) (task : obj) : t :=
  if mem task (_tasks c)
  then {| _name := _name c; _tasks := remove_first task (_tasks c) |}
  else c.

Inductive call : Type :=
| Add (task : obj)
| Remove (task : obj).

Definition apply (c : t) (k : call) : t :=
  match k with
  | Add task => add_task c task
  | Remove task => remove_task c task
  end.

End Category.

(** The percentage for [done] tasks out of [total] lies between 0 and
    100, is 100 only when all are done and 0 only when none is. *)
Definition percentage_sane (p : Z * Z) : bool :=
  let shown := percentage_of (fst p) (snd p) in
  (0 <=? shown) && (shown <=? 100)
  && Bool.eqb (shown =? 100) (fst p =? snd p)
  && Bool.eqb (shown =? 0) (fst p =? 0).

(** Checks on the two-digit and four-digit texts of [calendar_text]:
    no dash inside, no space in front or at the end, and the group of
    [strptime] reads the number back. *)
Definition starts_without_space (s : string) : bool :=
  match s with
  | EmptyString => false
  | String c _ => negb (PyStr.is_space c)
  end.

Definition reads_back (group : string -> option Z) (width : nat) (n : Z) : bool :=
  let text := PyStr.zero_pad width n in
  no_dash text
  && starts_without_space text
  && starts_without_space (PyStr.rstrip text)
  && String.eqb (PyStr.rstrip text) text
  && match group text with
     | Some n' => n' =? n
     | None => false
     end.

(** The row says "done". *)
Definition says_done (r : row) : bool :=
  match row_status r with
  | Selesai => true
  | _ => false
  end.

(** * Properties *)

(** ** The library functions on small inputs *)

Example lower_ex : PyStr.lower "Beli Susu 2L" = "beli susu 2l".
Proof. reflexivity. Qed.

Example strip_ex :
  PyStr.strip "  a b  " = "a b" /\ PyStr.strip "   " = "" /\ PyStr.strip "" = "".
Proof. repeat split; reflexivity. Qed.

Example contains_ex :
  PyStr.contains "li s" "beli susu" = true
  /\ PyStr.contains "x" "beli" = false
  /\ PyStr.contains "" "" = true.
Proof. repeat split; reflexivity. Qed.

Example zero_pad_ex :
  PyStr.zero_pad 4 2026 = "2026" /\ PyStr.zero_pad 2 7 = "07" /\ PyStr.zero_pad 2 0 = "00".
Proof. repeat split; reflexivity. Qed.

Example strptime_accepts :
  PyDate.strptime_dmY "25-12-2026" = Some (PyDate.mkDatetime 2026 12 25 0 0 0 0)
  /\ PyDate.strptime_dmY "1-2-2026" = Some (PyDate.mkDatetime 2026 2 1 0 0 0 0)
  /\ PyDate.strptime_dmY " 1-2-2026" = Some (PyDate.mkDatetime 2026 2 1 0 0 0 0)
  /\ PyDate.strptime_dmY "29-02-2024" = Some (PyDate.mkDatetime 2024 2 29 0 0 0 0).
Proof. repeat split; vm_compute; reflexivity. Qed.

Example strptime_refuses :
  PyDate.strptime_dmY "" = None
  /\ PyDate.strptime_dmY "2026-12-25" = None
  /\ PyDate.strptime_dmY "31-02-2026" = None
  /\ PyDate.strptime_dmY "29-02-2023" = None
  /\ PyDate.strptime_dmY "00-12-2026" = None
  /\ PyDate.strptime_dmY "1-13-2026" = None
  /\ PyDate.strptime_dmY "01-01-0000" = None
  /\ PyDate.strptime_dmY "25-12-2026 " = None
  /\ PyDate.strptime_dmY "25-12-20261" = None.
Proof. repeat split; vm_compute; reflexivity. Qed.

Example toordinal_ex :
  PyDate.toordinal (PyDate.mkDatetime 1 1 1 0 0 0 0) = 1
  /\ PyDate.toordinal now0 = 739924
  /\ PyDate.strftime_Ymd now0 = "2026-11-04".
Proof. repeat split; vm_compute; reflexivity. Qed.

Example sub_ex :
  PyDate.sub (PyDate.mkDatetime 2026 11 7 0 0 0 0) now0 = PyDate.mkTimedelta 2 50400 0
  /\ PyDate.sub (PyDate.mkDatetime 2026 11 1 0 0 0 0)
                (PyDate.mkDatetime 2026 11 4 10 0 0 5)
     = PyDate.mkTimedelta (-4) 50399 999995.
Proof. repeat split; vm_compute; reflexivity. Qed.

Example float_ex :
  PyFloat.int (PyFloat.mul (PyFloat.truediv 1 4) (PyFloat.of_int 100)) = 25
  /\ PyFloat.int (PyFloat.mul (PyFloat.truediv 2 3) (PyFloat.of_int 100)) = 66
  /\ PyFloat.round (PyFloat.mul (PyFloat.truediv 2 3) (PyFloat.of_int 100)) = 67
  /\ PyFloat.round (PyFloat.mul (PyFloat.truediv 1 8) (PyFloat.of_int 100)) = 12
  /\ PyFloat.round (PyFloat.mul (PyFloat.truediv 3 8) (PyFloat.of_int 100)) = 38.
Proof. repeat split; vm_compute; reflexivity. Qed.

(** ** Strings *)

Section StringFacts.

Import PyStr.

Lemma prefix_app (x y : string) :
  String.prefix x y = true <-> exists b, y = x +:+ b.
Proof.
  revert y. induction x as [|c x IH]; intros y.
  - split; [intros _; exists y; reflexivity | intros _; destruct y; reflexivity].
  - destruct y as [|c' y]; simpl.
    + split; [discriminate | intros [b Hb]; discriminate].
    + destruct (Ascii.ascii_dec c c') as [->|Hne].
      * rewrite IH. split; intros [b Hb]; exists b.
        -- now rewrite Hb.
        -- now inversion Hb.
      * split; [discriminate | intros [b Hb]; inversion Hb; congruence].
Qed.

(** [x in y] holds exactly when [y] is [a + x + b] for some [a], [b]. *)
Lemma contains_infix (x y : string) :
  contains x y = true <-> exists a b, y = a +:+ x +:+ b.
Proof.
  induction y as [|c y IH].
  - change (contains x "") with (String.prefix x "" || false).
    rewrite orb_false_r, prefix_app. split.
    + intros [b Hb]. exists "", b. exact Hb.
    + intros [a [b Hab]]. destruct a; [eauto | inversion Hab].
  - change (contains x (String c y))
      with (String.prefix x (String c y) || contains x y).
    rewrite orb_true_iff, prefix_app, IH. split.
    + intros [[b Hb] | [a [b Hab]]].
      * exists "", b. exact Hb.
      * exists (String c a), b. rewrite Hab. reflexivity.
    + intros [a [b Hab]]. destruct a as [|c' a].
      * left. eauto.
      * right. inversion Hab. eauto.
Qed.

Lemma truthy_false (s : string) : truthy s = false <-> s = "".
Proof. destruct s; simpl; split; congruence. Qed.

Lemma contains_empty (y : string) : contains "" y = true.
Proof. destruct y; reflexivity. Qed.

Lemma append_assoc (a b c : string) : (a +:+ b) +:+ c = a +:+ b +:+ c.
Proof.
  induction a as [|x a IH]; [reflexivity |].
  change (String x ((a +:+ b) +:+ c) = String x (a +:+ b +:+ c)).
  f_equal. exact IH.
Qed.

Lemma lower_append (a b : string) : lower (a +:+ b) = lower a +:+ lower b.
Proof.
  induction a as [|x a IH]; [reflexivity |].
  change (String (lower_char x) (lower (a +:+ b))
          = String (lower_char x) (lower a +:+ lower b)).
  f_equal. exact IH.
Qed.

(** [lstrip] cuts on the left only, [rstrip] on the right only. *)
Lemma lstrip_suffix (s : string) : exists a, s = a +:+ lstrip s.
Proof.
  induction s as [|c s [a IH]].
  - exists "". reflexivity.
  - cbn [lstrip]. destruct (is_space c).
    + exists (String c a). change (String c s = String c (a +:+ lstrip s)).
      f_equal. exact IH.
    + exists "". reflexivity.
Qed.

Lemma rstrip_prefix (s : string) : exists b, s = rstrip s +:+ b.
Proof.
  induction s as [|c s [b IH]].
  - exists "". reflexivity.
  - cbn [rstrip]. destruct (rstrip s) as [|c' r] eqn:E.
    + destruct (is_space c).
      * exists (String c s). reflexivity.
      * exists b. change (String c s = String c ("" +:+ b)). f_equal. exact IH.
    + exists b. change (String c s = String c (String c' r +:+ b)).
      f_equal. exact IH.
Qed.

Lemma strip_infix (s : string) : exists a b, s = a +:+ strip s +:+ b.
Proof.
  unfold strip. destruct (lstrip_suffix s) as [a Ha].
  destruct (rstrip_prefix (lstrip s)) as [b Hb].
  exists a, b. rewrite <- Hb. exact Ha.
Qed.

(** Being contained is transitive, and survives [lower]. *)
Lemma contains_trans (x y z : string) :
  contains x y = true -> contains y z = true -> contains x z = true.
Proof.
  rewrite !contains_infix. intros (a & b & ->) (a' & b' & ->).
  exists (a' +:+ a), (b +:+ b'). now rewrite !append_assoc.
Qed.

Lemma contains_lower (x y : string) :
  contains x y = true -> contains (lower x) (lower y) = true.
Proof.
  rewrite !contains_infix. intros (a & b & ->).
  exists (lower a), (lower b). now rewrite !lower_append.
Qed.

End StringFacts.

(** ** The search filter of [_refresh_list] *)

Section Filter.

Variable now : PyDate.datetime.

Lemma populate_cons (q : string) (idx : Z) (t : DeadlineTask) (rest : list DeadlineTask) :
  populate now q idx (t :: rest) =
  if passes q t
  then mkRow idx t (status_of now t) :: populate now q (idx + 1) rest
  else populate now q (idx + 1) rest.
Proof.
  simpl. unfold passes.
  destruct (PyStr.truthy q), (PyStr.contains q (combined_text t)); reflexivity.
Qed.

Lemma passes_infix (q : string) (t : DeadlineTask) :
  passes q t = true <->
  q = "" \/ exists a b, combined_text t = a +:+ q +:+ b.
Proof.
  unfold passes.
  rewrite orb_true_iff, negb_true_iff, truthy_false, contains_infix.
  reflexivity.
Qed.

Lemma populate_elem (q : string) (tasks : list DeadlineTask) :
  forall (idx i : Z) (t : DeadlineTask),
    (i, t) ∈ shown (populate now q idx tasks) <->
    idx <= i /\ tasks !! Z.to_nat (i - idx) = Some t /\ passes q t = true.
Proof.
  induction tasks as [|t0 rest IH]; intros idx i t.
  - simpl. split.
    + intros H. apply elem_of_nil in H. destruct H.
    + intros (_ & H & _). rewrite lookup_nil in H. discriminate.
  - assert (Hshift : idx < i -> Z.to_nat (i - idx) = S (Z.to_nat (i - (idx + 1))))
      by (intros; lia).
    rewrite populate_cons. destruct (passes q t0) eqn:Hp.
    + unfold shown. simpl map. fold (shown (populate now q (idx + 1) rest)).
      rewrite elem_of_cons, IH. split.
      * intros [Heq | (Hle & Hl & Hpt)].
        -- inversion Heq; subst. rewrite Z.sub_diag. simpl.
           split; [lia | split; [reflexivity | exact Hp]].
        -- split; [lia |]. split; [| exact Hpt].
           rewrite Hshift by lia. exact Hl.
      * intros (Hle & Hl & Hpt). destruct (Z.eq_dec i idx) as [-> | Hne].
        -- left. rewrite Z.sub_diag in Hl. simpl in Hl. congruence.
        -- right. split; [lia |]. split; [| exact Hpt].
           rewrite Hshift in Hl by lia. exact Hl.
    + rewrite IH. split.
      * intros (Hle & Hl & Hpt). split; [lia |]. split; [| exact Hpt].
        rewrite Hshift by lia. exact Hl.
      * intros (Hle & Hl & Hpt). destruct (Z.eq_dec i idx) as [-> | Hne].
        -- rewrite Z.sub_diag in Hl. simpl in Hl. congruence.
        -- split; [lia |]. split; [| exact Hpt].
           rewrite Hshift in Hl by lia. exact Hl.
Qed.

Lemma populate_sorted (q : string) (tasks : list DeadlineTask) :
  forall idx : Z,
    StronglySorted Z.lt (map fst (shown (populate now q idx tasks)))
    /\ Forall (fun i => idx <= i) (map fst (shown (populate now q idx tasks))).
Proof.
  induction tasks as [|t0 rest IH]; intros idx.
  - simpl. split; constructor.
  - rewrite populate_cons. destruct (IH (idx + 1)) as [Hs Hf].
    assert (Hf' : Forall (fun i => idx < i)
                    (map fst (shown (populate now q (idx + 1) rest)))).
    { eapply Forall_impl; [exact Hf |]. simpl. intros; lia. }
    destruct (passes q t0).
    + simpl. split.
      * constructor; assumption.
      * constructor; [lia |]. eapply Forall_impl; [exact Hf' |]. simpl. intros; lia.
    + split; [assumption |]. eapply Forall_impl; [exact Hf' |]. simpl. intros; lia.
Qed.

Lemma populate_no_query (tasks : list DeadlineTask) :
  forall idx : Z, map snd (shown (populate now "" idx tasks)) = tasks.
Proof.
  induction tasks as [|t0 rest IH]; intros idx; [reflexivity |].
  rewrite populate_cons. simpl. f_equal. apply IH.
Qed.

(** A text found in one field is found in the combined text. *)
Lemma field_in_combined_text (q : string) (t : DeadlineTask) :
  PyStr.contains q (PyStr.lower (title t)) = true
  \/ PyStr.contains q (PyStr.lower (description t)) = true
  \/ PyStr.contains q (PyStr.lower (category t)) = true ->
  PyStr.contains q (combined_text t) = true.
Proof.
  unfold combined_text. rewrite !lower_append, !contains_infix.
  intros [(a & b & ->) | [(a & b & ->) | (a & b & ->)]].
  - exists a. eexists. rewrite !append_assoc. reflexivity.
  - exists (PyStr.lower (title t) +:+ PyStr.lower " " +:+ a). eexists.
    rewrite !append_assoc. reflexivity.
  - exists (PyStr.lower (title t) +:+ PyStr.lower " " +:+
            PyStr.lower (description t) +:+ PyStr.lower " " +:+ a), b.
    rewrite !append_assoc. reflexivity.
Qed.

(** X10. A task one of whose fields (title, description, category)
    contains the search text, case ignored, is always among the rows
    shown, at its position in the task list. *)
Lemma some_field_contains_shown (x : string) (tasks : list DeadlineTask)
    (i : nat) (t : DeadlineTask) :
  tasks !! i = Some t ->
  some_field_contains x t = true ->
  (Z.of_nat i, t) ∈ shown (refresh_rows now x tasks).
Proof.
  intros Hi Hf. unfold refresh_rows. apply populate_elem.
  rewrite Z.sub_0_r, Nat2Z.id. split; [lia | split; [exact Hi |]].
  unfold passes. apply orb_true_iff. right.
  assert (Hq : PyStr.contains (PyStr.lower (PyStr.strip x)) (PyStr.lower x) = true).
  { apply contains_lower. apply contains_infix. apply strip_infix. }
  apply field_in_combined_text.
  unfold some_field_contains in Hf.
  apply orb_true_iff in Hf. destruct Hf as [Hf | Hf];
    [apply orb_true_iff in Hf; destruct Hf as [Hf | Hf] |].
  - left. eapply contains_trans; eassumption.
  - right; left. eapply contains_trans; eassumption.
  - right; right. eapply contains_trans; eassumption.
Qed.

End Filter.

(** C6, as amended. The rows of [_refresh_list] for the search text [x]
    are exactly the tasks, each with its position in the task list, for
    which the text "title description category" (joined by single
    spaces, lower-cased) contains [x] stripped of surrounding whitespace
    and lower-cased, every task when that text is empty; they come in the
    order of the list, and the empty search shows all tasks. *)
Theorem refresh_rows_filter (now : PyDate.datetime) (x : string)
    (tasks : list DeadlineTask) :
  let q := PyStr.lower (PyStr.strip x) in
  (forall (i : Z) (t : DeadlineTask),
      (i, t) ∈ shown (refresh_rows now x tasks) <->
      0 <= i /\ tasks !! Z.to_nat i = Some t
      /\ (q = "" \/ exists a b, combined_text t = a +:+ q +:+ b))
  /\ StronglySorted Z.lt (map fst (shown (refresh_rows now x tasks)))
  /\ map snd (shown (refresh_rows now "" tasks)) = tasks.
Proof.
  intros q. unfold refresh_rows. fold q. split; [| split].
  - intros i t. rewrite populate_elem, passes_infix, Z.sub_0_r. reflexivity.
  - apply populate_sorted.
  - apply populate_no_query.
Qed.

(** C6, counterexample. The search text "b c" is in none of the fields
    "ab", "cd", "Umum", yet the task is shown: the text runs across the
    space that joins title and description. *)
Lemma refresh_rows_across_fields :
  let t := DeadlineTask_init now0 1 "ab" "cd" "25-12-2026" "Umum" in
  some_field_contains "b c" t = false
  /\ shown (refresh_rows now0 "b c" [t]) = [(0, t)].
Proof. split; reflexivity. Qed.

(** ** The progress figures of [_refresh_list] *)

Section Progress.

Lemma count_done_filter (tasks : list DeadlineTask) :
  count_done tasks = len (List.filter is_completed tasks).
Proof.
  unfold len. induction tasks as [|t rest IH]; [reflexivity |].
  simpl. rewrite IH. destruct (is_completed t); simpl length; lia.
Qed.

Lemma count_pending_filter (tasks : list DeadlineTask) :
  len tasks - count_done tasks =
  len (List.filter (fun t => negb (is_completed t)) tasks).
Proof.
  unfold len. induction tasks as [|t rest IH]; [reflexivity |].
  simpl. destruct (is_completed t); simpl negb; cbv iota; simpl length; lia.
Qed.

Lemma count_done_bounds (tasks : list DeadlineTask) :
  0 <= count_done tasks <= len tasks.
Proof.
  unfold len. induction tasks as [|t rest IH]; simpl; [lia |].
  destruct (is_completed t); lia.
Qed.

(** For up to 100 tasks the percentage shown is the exact integer part
    of [100 * done / total] or one less. *)
Lemma percentage_near_exact (d t : Z) :
  0 <= d <= t -> 1 <= t <= 100 ->
  percentage_of d t = 100 * d / t \/ percentage_of d t = 100 * d / t - 1.
Proof.
  intros Hd Ht.
  assert (Hall : forallb near_exact (done_total_pairs 100) = true) by (vm_compute; reflexivity).
  rewrite forallb_forall in Hall.
  assert (Hin : In (d, t) (done_total_pairs 100)).
  { unfold done_total_pairs. apply in_flat_map. exists (Z.to_nat t). split.
    - apply in_seq. lia.
    - apply in_map_iff. exists (Z.to_nat d). split.
      + f_equal; lia.
      + apply in_seq. lia. }
  specialize (Hall _ Hin). unfold near_exact in Hall. simpl fst in Hall. simpl snd in Hall.
  apply orb_true_iff in Hall. destruct Hall as [H | H]; apply Z.eqb_eq in H; auto.
Qed.

(** It can be one less: 29 tasks done out of 100 show 28 percent,
    because [29 / 100 * 100] is [28.999999999999996] as a float. *)
Example percentage_29_of_100 : percentage_of 29 100 = 28.
Proof. vm_compute. reflexivity. Qed.

End Progress.

(** C5, as amended. The status bar shows total = number of tasks, done =
    number of completed tasks, pending = total - done (the number of
    tasks not completed), and percent = int(done / total * 100), the
    double-precision product truncated toward zero, when total > 0 and 0
    when total = 0; 4 tasks with 1 completed give 4, 1, 3 and 25. *)
Theorem refresh_progress_figures (tasks : list DeadlineTask) :
  let p := refresh_progress tasks in
  total p = len tasks
  /\ done p = len (List.filter is_completed tasks)
  /\ pending p = total p - done p
  /\ pending p = len (List.filter (fun t => negb (is_completed t)) tasks)
  /\ 0 <= done p <= total p
  /\ percentage p =
     (if 0 <? total p
      then PyFloat.int (PyFloat.mul (PyFloat.div (PyFloat.of_int (done p))
                                                 (PyFloat.of_int (total p)))
                                    (PyFloat.of_int 100))
      else 0)
  /\ percentage_of 0 0 = 0
  /\ mkProgress 4 1 (4 - 1) (percentage_of 1 4) = mkProgress 4 1 3 25.
Proof.
  simpl. repeat split.
  - apply count_done_filter.
  - apply count_pending_filter.
  - apply count_done_bounds.
  - apply count_done_bounds.
Qed.

(** C5, counterexample. With 2 tasks completed out of 3 the status bar
    shows 66 percent; rounding [66.66...] would give 67. *)
Lemma refresh_progress_truncates :
  let a := toggle_status (DeadlineTask_init now0 1 "a" "" "25-12-2026" "Umum") in
  let b := toggle_status (DeadlineTask_init now0 2 "b" "" "25-12-2026" "Umum") in
  let c := DeadlineTask_init now0 3 "c" "" "25-12-2026" "Umum" in
  refresh_progress [a; b; c] = mkProgress 3 2 1 66
  /\ rounded_percentage 2 3 = 67.
Proof. split; vm_compute; reflexivity. Qed.

(** ** The task manager: positions and ids *)

Section Manager.

Lemma save_tasks_tasks (m : TaskManager) : _tasks (save_tasks m) = _tasks m.
Proof. unfold save_tasks. destruct (writable (_file m)); reflexivity. Qed.

Lemma add_task_tasks (m : TaskManager) (t : DeadlineTask) :
  _tasks (add_task m t) = (_tasks m ++ [t])%list.
Proof. unfold add_task. rewrite save_tasks_tasks. reflexivity. Qed.

Lemma delete_task_tasks (m : TaskManager) (index : Z) :
  0 <= index < len (_tasks m) ->
  _tasks (delete_task m index) = delete (Z.to_nat index) (_tasks m).
Proof.
  intros H. unfold delete_task.
  replace ((0 <=? index) && (index <? len (_tasks m))) with true.
  - rewrite save_tasks_tasks. reflexivity.
  - symmetry. apply andb_true_iff. split; [apply Z.leb_le | apply Z.ltb_lt]; lia.
Qed.

Lemma out_of_range (l : list DeadlineTask) (p : Z) :
  p < 0 \/ len l <= p -> (0 <=? p) && (p <? len l) = false.
Proof.
  intros H. apply andb_false_iff.
  destruct H; [left; apply Z.leb_gt | right; apply Z.ltb_ge]; lia.
Qed.

(** [max] of a non-empty list is one of its elements and bounds them
    all. *)
Lemma fold_left_max (rest : list Z) :
  forall x : Z,
    In (fold_left Z.max rest x) (x :: rest)
    /\ Forall (fun i => i <= fold_left Z.max rest x) (x :: rest).
Proof.
  induction rest as [|y rest IH]; intros x; simpl.
  - split; [left; reflexivity | constructor; [lia | constructor]].
  - destruct (IH (Z.max x y)) as [Hin Hall]. split.
    + destruct Hin as [Heq | Hin].
      * rewrite <- Heq.
        destruct (Z.max_spec x y) as [[_ Hm] | [_ Hm]]; [right; left | left]; lia.
      * right; right; exact Hin.
    + inversion Hall as [|? ? Hhd Htl]; subst.
      constructor; [lia |]. constructor; [lia | exact Htl].
Qed.

Lemma next_task_id_above (tasks : list DeadlineTask) :
  Forall (fun i => i < next_task_id tasks) (map task_id tasks).
Proof.
  unfold next_task_id. destruct (map task_id tasks) as [|x rest]; [constructor |].
  simpl py_max. destruct (fold_left_max rest x) as [_ Hall].
  eapply Forall_impl; [exact Hall |]. simpl. intros; lia.
Qed.

Lemma next_task_id_positive (tasks : list DeadlineTask) :
  Forall (fun i => 1 <= i) (map task_id tasks) -> 1 <= next_task_id tasks.
Proof.
  intros Hpos. pose proof (next_task_id_above tasks) as Habove.
  destruct (map task_id tasks) as [|x rest] eqn:E.
  - unfold next_task_id. rewrite E. simpl. lia.
  - inversion Hpos; inversion Habove; subst. lia.
Qed.

Lemma sorted_snoc (l : list Z) (x : Z) :
  StronglySorted Z.lt l -> Forall (fun i => i < x) l ->
  StronglySorted Z.lt (l ++ [x]).
Proof.
  induction 1 as [|y l Hs IH Hy]; intros Hx; simpl.
  - constructor; constructor.
  - inversion Hx; subst. constructor; [apply IH; assumption |].
    apply Forall_app. split; [assumption | constructor; [assumption | constructor]].
Qed.

Lemma Forall_delete_ids (P : Z -> Prop) (l : list Z) (n : nat) :
  Forall P l -> Forall P (delete n l).
Proof.
  rewrite !Forall_forall. intros H z Hz. apply H.
  eapply list_elem_of_delete_inv. exact Hz.
Qed.

Lemma sorted_delete (l : list Z) :
  StronglySorted Z.lt l -> forall n : nat, StronglySorted Z.lt (delete n l).
Proof.
  induction 1 as [|y l Hs IH Hy]; intros n; destruct n; simpl;
    try constructor; auto.
  apply Forall_delete_ids. exact Hy.
Qed.

Lemma map_delete (l : list DeadlineTask) (n : nat) :
  map task_id (delete n l) = delete n (map task_id l).
Proof.
  revert n. induction l as [|t l IH]; intros n; destruct n; simpl; auto.
  f_equal. apply IH.
Qed.

Lemma _add_task_cases (now : PyDate.datetime) (m : TaskManager)
    (te de c dle : string) :
  snd (_add_task now m te de c dle) = m
  \/ snd (_add_task now m te de c dle) =
     add_task m (DeadlineTask_init now (next_task_id (_tasks m))
                   (PyStr.strip te) (PyStr.strip de) (PyStr.strip dle) c).
Proof.
  unfold _add_task.
  destruct (PyStr.truthy (PyStr.strip te)); simpl; [| auto].
  destruct (PyStr.truthy (PyStr.strip dle)); simpl; [| auto].
  destruct (PyDate.strptime_dmY (PyStr.strip dle)); simpl; auto.
Qed.

Lemma step_ids_ok (m : TaskManager) (o : op) : ids_ok m -> ids_ok (step m o).
Proof.
  intros [Hs Hp]. destruct o as [now te de c dle | index]; simpl.
  - destruct (_add_task_cases now m te de c dle) as [-> | ->]; [split; assumption |].
    unfold ids_ok. rewrite add_task_tasks, map_app. simpl. split.
    + apply sorted_snoc; [assumption | apply next_task_id_above].
    + apply Forall_app. split; [assumption |].
      constructor; [apply next_task_id_positive; assumption | constructor].
  - unfold delete_task.
    destruct ((0 <=? index) && (index <? len (_tasks m))); [| split; assumption].
    unfold ids_ok. rewrite save_tasks_tasks. simpl. rewrite map_delete. split.
    + apply sorted_delete. assumption.
    + apply Forall_delete_ids. assumption.
Qed.

Lemma run_ids_ok (ops : list op) :
  forall m : TaskManager, ids_ok m -> ids_ok (run ops m).
Proof.
  induction ops as [|o ops IH]; intros m H; simpl; [assumption |].
  apply IH. apply step_ids_ok. assumption.
Qed.

End Manager.

(** C7. The id given to a new task is 1 when the store is empty and
    otherwise one more than the largest id in the store; that is the id
    of the task [_add_task] appends when it accepts the input. *)
Theorem next_task_id_is_max_plus_one (now : PyDate.datetime) (m : TaskManager)
    (title_entry desc_entry category_cb deadline_entry : string) :
  let tasks := _tasks m in
  let after := snd (_add_task now m title_entry desc_entry category_cb deadline_entry) in
  ((tasks = [] /\ next_task_id tasks = 1)
   \/ (exists largest : Z,
         In largest (map task_id tasks)
         /\ Forall (fun i => i <= largest) (map task_id tasks)
         /\ next_task_id tasks = largest + 1))
  /\ (after = m
      \/ exists task : DeadlineTask,
           _tasks after = (tasks ++ [task])%list
           /\ task_id task = next_task_id tasks).
Proof.
  intros tasks after. split.
  - unfold next_task_id. destruct tasks as [|t rest]; [left; split; reflexivity |].
    right. simpl map. simpl py_max.
    destruct (fold_left_max (map task_id rest) (task_id t)) as [Hin Hall].
    eexists. split; [exact Hin | split; [exact Hall | reflexivity]].
  - subst after.
    destruct (_add_task_cases now m title_entry desc_entry category_cb deadline_entry)
      as [-> | ->]; [left; reflexivity |].
    right. eexists. split; [apply add_task_tasks | reflexivity].
Qed.

(** C4, as amended. Over every sequence of add and delete operations
    starting from the empty store, the ids in the store are positive,
    pairwise distinct and increasing along the list, and the id given to
    the next task is larger than every id in the store: an id is never
    given to a new task while a task with that id or a larger one is in
    the store. *)
Theorem ids_never_clash (ops : list op) (w : bool) :
  let m := run ops (empty_manager w) in
  StronglySorted Z.lt (map task_id (_tasks m))
  /\ NoDup (map task_id (_tasks m))
  /\ Forall (fun i => 1 <= i < next_task_id (_tasks m)) (map task_id (_tasks m)).
Proof.
  intros m.
  assert (H : ids_ok m).
  { apply run_ids_ok. split; constructor. }
  destruct H as [Hs Hp]. split; [exact Hs | split].
  - clear Hp. induction Hs as [|x l Hs IH Hx]; constructor; [| exact IH].
    intros Hin. rewrite Forall_forall in Hx.
    apply Hx in Hin. lia.
  - pose proof (next_task_id_above (_tasks m)) as Ha.
    rewrite Forall_forall in *. intros i Hi. split; [apply Hp | apply Ha]; exact Hi.
Qed.

(** C4, counterexample. Add a task, delete it, add another: the second
    task gets id 1 again. *)
Lemma id_reassigned_after_delete :
  let ops := [OpAdd now0 "a" "" "Umum" "25-12-2026";
              OpDelete 0;
              OpAdd now0 "b" "" "Umum" "26-12-2026"] in
  trace ops (empty_manager true) = [Assigned 1; Removed 1; Assigned 1]
  /\ ~ never_reassigned (trace ops (empty_manager true)).
Proof.
  assert (E : trace [OpAdd now0 "a" "" "Umum" "25-12-2026"; OpDelete 0;
                     OpAdd now0 "b" "" "Umum" "26-12-2026"] (empty_manager true)
              = [Assigned 1; Removed 1; Assigned 1]) by (vm_compute; reflexivity).
  split; [exact E |].
  intros H. rewrite E in H. apply (H 1 [Assigned 1] [] []). reflexivity.
Qed.

(** C8. For a position outside [0, count), [delete_task] and
    [toggle_task] return the manager as it was: same tasks, same file,
    nothing raised. *)
Theorem out_of_range_is_noop (m : TaskManager) (p : Z) :
  p < 0 \/ len (_tasks m) <= p ->
  delete_task m p = m /\ toggle_task m p = m.
Proof.
  intros H. unfold delete_task, toggle_task.
  rewrite (out_of_range _ _ H). split; reflexivity.
Qed.

Lemma out_of_range_is_noop_witness :
  (-1 < 0 \/ len (_tasks (mkTaskManager [task_a; task_b] (mkDisk NotJson true))) <= -1)
  /\ delete_task (mkTaskManager [task_a; task_b] (mkDisk NotJson true)) (-1)
     = mkTaskManager [task_a; task_b] (mkDisk NotJson true)
  /\ toggle_task (mkTaskManager [task_a; task_b] (mkDisk NotJson true)) (-1)
     = mkTaskManager [task_a; task_b] (mkDisk NotJson true).
Proof.
  split; [left; lia |].
  apply (out_of_range_is_noop (mkTaskManager [task_a; task_b] (mkDisk NotJson true)) (-1)).
  left; lia.
Defined.

(** The three calls named by the specification. *)
Lemma boundary_positions_are_noops (m : TaskManager) :
  delete_task m (-1) = m
  /\ delete_task m (len (_tasks m)) = m
  /\ toggle_task m (len (_tasks m)) = m.
Proof.
  unfold delete_task, toggle_task.
  rewrite !out_of_range by lia. repeat split.
Qed.

(** X3. Toggling the same position twice gives back the task list as
    it was, whatever the position (out of range, both calls do
    nothing). *)
Lemma toggle_twice (m : TaskManager) (p : Z) :
  _tasks (toggle_task (toggle_task m p) p) = _tasks m.
Proof.
  unfold toggle_task at 2.
  destruct ((0 <=? p) && (p <? len (_tasks m))) eqn:E.
  - unfold toggle_task. rewrite save_tasks_tasks. simpl _tasks.
    unfold len in *. rewrite length_alter, E, save_tasks_tasks. simpl _tasks.
    rewrite list_alter_alter_eq. apply list_alter_id.
    intros [[i t d c b cd] dl]. unfold toggle_status, Task_toggle_status. simpl.
    rewrite negb_involutive. reflexivity.
  - unfold toggle_task. rewrite E. reflexivity.
Qed.

(** ** Validation of new tasks *)

(** C3, as amended. The constructor validates nothing: it builds a task
    with [completed = false] from any title and deadline. The checks are
    in [_add_task]: it refuses the input (shows a warning, raises
    nothing, leaves tasks and file as they were) exactly when the title
    is empty after stripping surrounding whitespace, the deadline is
    empty after stripping, or the stripped deadline does not parse as a
    calendar date DD-MM-YYYY; otherwise it appends a task with the
    stripped title and deadline and [completed = false]. *)
Theorem _add_task_validates (now : PyDate.datetime) (m : TaskManager)
    (title_entry desc_entry category_cb deadline_entry : string) :
  let ttl := PyStr.strip title_entry in
  let dl := PyStr.strip deadline_entry in
  let result := _add_task now m title_entry desc_entry category_cb deadline_entry in
  (forall (i : Z) (t d l c : string),
      is_completed (DeadlineTask_init now i t d l c) = false
      /\ title (DeadlineTask_init now i t d l c) = t
      /\ deadline (DeadlineTask_init now i t d l c) = l)
  /\ ((invalid_input ttl dl
       /\ snd result = m
       /\ exists caption message, fst result = showwarning caption message)
      \/ (~ invalid_input ttl dl
          /\ exists task : DeadlineTask,
               snd result = add_task m task
               /\ _tasks (snd result) = (_tasks m ++ [task])%list
               /\ title task = ttl
               /\ deadline task = dl
               /\ is_completed task = false
               /\ exists caption message, fst result = showinfo caption message)).
Proof.
  intros ttl dl result. split; [intros; repeat split |].
  subst result. unfold _add_task. fold ttl dl. unfold invalid_input.
  destruct (PyStr.truthy ttl) eqn:Et; simpl.
  - destruct (PyStr.truthy dl) eqn:Ed; simpl.
    + destruct (PyDate.strptime_dmY dl) as [date |] eqn:Ep; simpl.
      * right. split.
        -- intros [H | [H | H]].
           ++ apply truthy_false in H. congruence.
           ++ apply truthy_false in H. congruence.
           ++ congruence.
        -- eexists. split; [reflexivity |]. split; [apply add_task_tasks |].
           repeat split. eauto.
      * left. split; [right; right; reflexivity | split; [reflexivity | eauto]].
    + left. apply truthy_false in Ed.
      split; [right; left; exact Ed | split; [reflexivity | eauto]].
  - left. apply truthy_false in Et.
    split; [left; exact Et | split; [reflexivity | eauto]].
Qed.

(** C3, counterexample. A task with empty title and empty deadline is
    constructed and stored without any error; and [_add_task] refuses the
    title " ", which is not empty, with a deadline that parses. *)
Lemma construction_not_validated :
  let t := DeadlineTask_init now0 1 "" "" "" "Umum" in
  (invalid_input (title t) (deadline t)
   /\ _tasks (add_task (empty_manager true) t) = [t])
  /\ (~ invalid_input " " "25-12-2026"
      /\ snd (_add_task now0 (empty_manager true) " " "" "Umum" "25-12-2026")
         = empty_manager true).
Proof.
  split; split.
  - left. reflexivity.
  - reflexivity.
  - intros [H | [H | H]]; [discriminate | discriminate |].
    vm_compute in H. discriminate.
  - reflexivity.
Qed.

(** ** The status column of [_refresh_list] *)

Section Status.

Import PyDate.

Lemma days_sub (a b : datetime) :
  days (sub a b) = (instant a - instant b) / US_PER_DAY.
Proof.
  unfold sub, timedelta_new, instant. simpl days. f_equal. lia.
Qed.

(** [.days] floors, so [days_left < 3] says that less than three days
    of time separate now from the deadline. *)
Lemma days_left_below_3 (a b : datetime) :
  (days (sub a b) <? 3) = (instant a - instant b <? 3 * US_PER_DAY).
Proof.
  rewrite days_sub.
  assert (Hpos : 0 < US_PER_DAY) by (unfold US_PER_DAY; lia).
  destruct (Z.ltb_spec (instant a - instant b) (3 * US_PER_DAY)) as [Hlt | Hge].
  - apply Z.ltb_lt. apply Z.div_lt_upper_bound; lia.
  - apply Z.ltb_ge. apply Z.div_le_lower_bound; lia.
Qed.

Lemma strptime_midnight (s : string) (d : datetime) :
  strptime_dmY s = Some d ->
  hour d = 0 /\ minute d = 0 /\ second d = 0 /\ microsecond d = 0.
Proof.
  unfold strptime_dmY.
  destruct (split_dash s) as [|sd [|sm [|sy [|? ?]]]]; try discriminate.
  destruct (match_d sd), (match_m sm), (match_Y sy); try discriminate.
  destruct (valid_date _ _ _); [| discriminate].
  intros H. inversion H. simpl. repeat split.
Qed.

(** In calendar days: while the clock is past midnight, a deadline is
    urgent up to and including the third day after today. *)
Lemma days_left_calendar (s : string) (d now : datetime) :
  strptime_dmY s = Some d ->
  0 < seconds_of_day now * 1000000 + microsecond now < US_PER_DAY ->
  days (sub d now) = toordinal d - toordinal now - 1.
Proof.
  intros Hd Hnow. destruct (strptime_midnight _ _ Hd) as (Hh & Hm & Hs & Hu).
  rewrite days_sub. unfold instant, seconds_of_day in *.
  rewrite Hh, Hm, Hs, Hu.
  symmetry. apply Z.div_unique with
    (r := US_PER_DAY - (second now + minute now * 60 + hour now * 3600) * 1000000
          - microsecond now).
  - left. lia.
  - lia.
Qed.

End Status.


(** The cases named by the specification, at 10:00 on 4 November 2026:
    a deadline 2 days ahead is urgent, one 10 days ahead is pending, a
    completed task is done, a deadline that does not parse is pending;
    and a deadline 3 calendar days ahead is still urgent, 4 days ahead
    is pending. *)
Example status_of_examples :
  status_of now0 (DeadlineTask_init now0 1 "a" "" "06-11-2026" "Umum") = Mendesak
  /\ status_of now0 (DeadlineTask_init now0 1 "a" "" "14-11-2026" "Umum") = Tertunda
  /\ status_of now0 (toggle_status (DeadlineTask_init now0 1 "a" "" "14-11-2026" "Umum"))
     = Selesai
  /\ status_of now0 (toggle_status (DeadlineTask_init now0 1 "a" "" "besok" "Umum"))
     = Selesai
  /\ status_of now0 (DeadlineTask_init now0 1 "a" "" "2026-11-06" "Umum") = Tertunda
  /\ status_of now0 (DeadlineTask_init now0 1 "a" "" "07-11-2026" "Umum") = Mendesak
  /\ status_of now0 (DeadlineTask_init now0 1 "a" "" "08-11-2026" "Umum") = Tertunda
  /\ status_of now0 (DeadlineTask_init now0 1 "a" "" "01-01-2020" "Umum") = Mendesak.
Proof. repeat split; vm_compute; reflexivity. Qed.

(** ** Saving and loading *)

Section Persistence.

Variable now : PyDate.datetime.

(** What [to_dict] writes under each key. *)
Lemma to_dict_lookup (t : DeadlineTask) :
  to_dict t !! "id" = Some (JInt (task_id t))
  /\ to_dict t !! "title" = Some (JStr (title t))
  /\ to_dict t !! "description" = Some (JStr (description t))
  /\ to_dict t !! "category" = Some (JStr (category t))
  /\ to_dict t !! "completed" = Some (JBool (is_completed t))
  /\ to_dict t !! "created_date" = Some (JStr (created_date t))
  /\ to_dict t !! "deadline" = Some (JStr (deadline t))
  /\ to_dict t !! "type" = Some (JStr "DeadlineTask").
Proof.
  unfold to_dict, Task_to_dict. repeat split; by simplify_map_eq.
Qed.

Lemma load_item_to_dict (t : DeadlineTask) :
  load_item now (JDict (to_dict t)) = inr (as_loaded now t).
Proof.
  destruct (to_dict_lookup t) as (Hid & Htitle & Hdesc & Hcat & Hdone & _ & Hdl & _).
  unfold load_item, getitem, dict_get.
  rewrite Hid, Htitle, Hdesc, Hcat, Hdone, Hdl. reflexivity.
Qed.

Lemma load_loop_to_dict (tasks : list DeadlineTask) :
  forall acc : list LoadedTask,
    load_loop now (map (fun t => JDict (to_dict t)) tasks) acc
    = Loaded (acc ++ map (as_loaded now) tasks).
Proof.
  induction tasks as [|t rest IH]; intros acc; simpl.
  - rewrite app_nil_r. reflexivity.
  - rewrite load_item_to_dict, IH, <- app_assoc. reflexivity.
Qed.

(** Saving then loading gives back every task, with a new creation
    date. *)
Lemma load_after_save (m : TaskManager) :
  writable (_file m) = true ->
  load_tasks now (_file (save_tasks m)) = Loaded (map (as_loaded now) (_tasks m)).
Proof.
  intros Hw. unfold save_tasks. rewrite Hw. unfold load_tasks. simpl.
  apply load_loop_to_dict.
Qed.


End Persistence.

(** C1. Saving a store and loading the file gives a task list of the same
    length in which the task at every position has the id, title,
    description, deadline, category and completion flag of the task saved
    at that position. *)
Theorem save_load_roundtrip (now : PyDate.datetime) (m : TaskManager) :
  writable (_file m) = true ->
  exists loaded : list LoadedTask,
    load_tasks now (_file (save_tasks m)) = Loaded loaded
    /\ length loaded = length (_tasks m)
    /\ forall (i : nat) (t : DeadlineTask),
         _tasks m !! i = Some t ->
         exists o : LoadedTask,
           loaded !! i = Some o
           /\ l_id o = JInt (task_id t)
           /\ l_title o = JStr (title t)
           /\ l_description o = JStr (description t)
           /\ l_deadline o = JStr (deadline t)
           /\ l_category o = JStr (category t)
           /\ l_completed o = JBool (is_completed t).
Proof.
  intros Hw. exists (map (as_loaded now) (_tasks m)).
  split; [apply load_after_save; exact Hw |].
  split; [apply length_map |].
  intros i t Hi. exists (as_loaded now t). split.
  - change (map (as_loaded now) (_tasks m)) with (as_loaded now <$> _tasks m).
    rewrite list_lookup_fmap, Hi. reflexivity.
  - repeat split.
Qed.

Lemma save_load_roundtrip_witness :
  writable (mkDisk Absent true) = true
  /\ exists loaded : list LoadedTask,
       load_tasks now0 (_file (save_tasks (mkTaskManager [task_a; task_b] (mkDisk Absent true))))
       = Loaded loaded
       /\ length loaded = 2%nat.
Proof.
  split; [reflexivity |].
  destruct (save_load_roundtrip now0 (mkTaskManager [task_a; task_b] (mkDisk Absent true))
              eq_refl) as (loaded & Hload & Hlen & _).
  exists loaded. split; [exact Hload | exact Hlen].
Defined.

(** ** What [load_tasks] does with files it did not write *)

Section Loading.

Variable now : PyDate.datetime.

Lemma load_item_without_stamp (item : json) :
  load_item now (without_stamp item) = load_item now item.
Proof.
  destruct item as [| | | | | |m]; try reflexivity.
  unfold load_item, getitem, dict_get, without_stamp.
  rewrite !lookup_delete_ne by done. reflexivity.
Qed.

Lemma load_loop_without_stamp (items : list json) :
  forall acc : list LoadedTask,
    load_loop now (map without_stamp items) acc = load_loop now items acc.
Proof.
  induction items as [|item rest IH]; intros acc; simpl; [reflexivity |].
  rewrite load_item_without_stamp. destruct (load_item now item); [reflexivity |].
  apply IH.
Qed.

Lemma load_item_created_date (item : json) (o : LoadedTask) :
  load_item now item = inr o -> l_created_date o = PyDate.strftime_Ymd now.
Proof.
  unfold load_item.
  destruct (getitem item "id"); [discriminate |].
  destruct (getitem item "title"); [discriminate |].
  destruct (getitem item "description"); [discriminate |].
  destruct item; try discriminate.
  intros H. inversion H. reflexivity.
Qed.

Lemma load_loop_created_date (items : list json) :
  forall acc : list LoadedTask,
    Forall (fun o => l_created_date o = PyDate.strftime_Ymd now) acc ->
    Forall (fun o => l_created_date o = PyDate.strftime_Ymd now)
           (appended (load_loop now items acc)).
Proof.
  induction items as [|item rest IH]; intros acc Hacc; simpl; [exact Hacc |].
  destruct (load_item now item) as [e | o] eqn:E; [exact Hacc |].
  apply IH. apply Forall_app. split; [exact Hacc |].
  constructor; [eapply load_item_created_date; exact E | constructor].
Qed.

(** A file that does not exist or is not JSON gives the empty list. *)
Lemma load_tasks_unreadable (d : disk) :
  content d = Absent \/ content d = NotJson -> load_tasks now d = Loaded [].
Proof. unfold load_tasks. intros [-> | ->]; reflexivity. Qed.

(** JSON that is not a list of records makes the loop raise at its
    first item, or before it. *)
Example load_tasks_wrong_shape :
  load_tasks now (mkDisk (JsonDoc (JInt 5)) true) = Raised TypeError []
  /\ load_tasks now (mkDisk (JsonDoc JNull) true) = Raised TypeError []
  /\ load_tasks now (mkDisk (JsonDoc (JStr "abc")) true) = Raised TypeError []
  /\ load_tasks now (mkDisk (JsonDoc (JList [JInt 1])) true) = Raised TypeError []
  /\ load_tasks now (mkDisk (JsonDoc (JDict {[ "id" := JInt 1 ]})) true)
     = Raised TypeError []
  /\ load_tasks now (mkDisk (JsonDoc (JDict ∅)) true) = Loaded []
  /\ load_tasks now (mkDisk (JsonDoc (JStr "")) true) = Loaded [].
Proof. repeat split; vm_compute; reflexivity. Qed.

(** A record without ["id"] after a good one: the exception leaves
    [load_tasks] with the first task already appended. *)
Example load_tasks_raises_midway :
  load_tasks now (mkDisk (JsonDoc (JList [JDict (to_dict task_a);
                                          JDict {[ "title" := JStr "x" ]}])) true)
  = Raised (KeyError "id") [as_loaded now task_a].
Proof.
  unfold load_tasks, iterate. cbn [content load_loop].
  rewrite load_item_to_dict. reflexivity.
Qed.

End Loading.

(** C2, the failing input. The file holds the JSON text
    [[{"title": "a", "description": "b"}]]: [json.load] accepts it, the
    loop asks the record for ["id"], and the KeyError leaves [load_tasks]
    and the constructor of [TaskManager]: no store is built, where the
    claim promises an empty one and no exception. *)
Theorem load_tasks_missing_id_raises :
  load_tasks now0 file_without_id = Raised (KeyError "id") [].
Proof. vm_compute. reflexivity. Qed.

(** C10. [load_tasks] reads neither ["created_date"] nor ["type"]: taking
    both keys out of every record changes nothing in what it returns or
    raises; every task it builds carries the date of the clock at load
    time; and a record written by the base class (type ["Task"], no
    deadline) comes back as a deadline task with the empty deadline. *)
Theorem load_ignores_created_date_and_type (now : PyDate.datetime)
    (items : list json) (w : bool) (d : disk) (b : Task) :
  load_tasks now (mkDisk (JsonDoc (JList (map without_stamp items))) w)
  = load_tasks now (mkDisk (JsonDoc (JList items)) w)
  /\ Forall (fun o => l_created_date o = PyDate.strftime_Ymd now)
            (appended (load_tasks now d))
  /\ load_item now (JDict (Task_to_dict b))
     = inr (as_loaded now (mkDeadlineTask b "")).
Proof.
  split; [| split].
  - unfold load_tasks. simpl. apply load_loop_without_stamp.
  - unfold load_tasks. destruct (content d) as [| |data]; try constructor.
    destruct (iterate data) as [e | its]; [constructor |].
    apply load_loop_created_date. constructor.
  - destruct b as [i ttl ds c bo cd]. unfold load_item, getitem, dict_get, Task_to_dict.
    by simplify_map_eq.
Qed.

(** A task created on 1 January 2020 and saved, then loaded on
    4 November 2026, says it was created on 4 November 2026. *)
Example created_date_not_restored :
  let old := PyDate.mkDatetime 2020 1 1 9 30 0 0 in
  let t := DeadlineTask_init old 1 "a" "b" "25-12-2026" "Umum" in
  created_date t = "2020-01-01"
  /\ to_dict t !! "created_date" = Some (JStr "2020-01-01")
  /\ load_tasks now0 (_file (save_tasks (mkTaskManager [t] (mkDisk Absent true))))
     = Loaded [as_loaded now0 t]
  /\ l_created_date (as_loaded now0 t) = "2026-11-04".
Proof. repeat split; vm_compute; reflexivity. Qed.

(** * Further properties *)

(** ** Positions: what delete, toggle and edit touch *)

Section Positions.

Lemma in_range_true (l : list DeadlineTask) (p : Z) :
  0 <= p < len l -> (0 <=? p) && (p <? len l) = true.
Proof.
  intros H. apply andb_true_iff. split; [apply Z.leb_le | apply Z.ltb_lt]; lia.
Qed.

Lemma in_range_lookup (l : list DeadlineTask) (p : Z) :
  0 <= p < len l -> exists t, l !! Z.to_nat p = Some t.
Proof.
  intros H. apply lookup_lt_is_Some. unfold len in H. lia.
Qed.

Lemma toggle_task_tasks (m : TaskManager) (p : Z) :
  0 <= p < len (_tasks m) ->
  _tasks (toggle_task m p) = alter toggle_status (Z.to_nat p) (_tasks m).
Proof.
  intros H. unfold toggle_task. rewrite (in_range_true _ _ H), save_tasks_tasks.
  reflexivity.
Qed.

(** A field that [f] leaves alone reads the same along the list after
    [f] is applied at one position. *)
Lemma map_alter_same {B : Type} (g : DeadlineTask -> B)
    (f : DeadlineTask -> DeadlineTask) (l : list DeadlineTask) (i : nat) :
  (forall t, g (f t) = g t) -> map g (alter f i l) = map g l.
Proof.
  intros Hg. revert i. induction l as [|t l IH]; intros [|i]; simpl;
    [reflexivity | reflexivity | f_equal; apply Hg | f_equal; apply IH].
Qed.

Lemma count_done_map (l k : list DeadlineTask) :
  map is_completed l = map is_completed k -> count_done l = count_done k.
Proof.
  revert k. induction l as [|t l IH]; intros [|u k] H; simpl in *;
    try discriminate; [reflexivity |].
  inversion H as [[H1 H2]]. rewrite H1, (IH _ H2). reflexivity.
Qed.

Lemma py_index_some (n index : Z) (i : nat) :
  py_index n index = Some i -> (Z.of_nat i < n).
Proof.
  unfold py_index.
  destruct ((0 <=? index) && (index <? n)) eqn:E1.
  - intros H. inversion H. apply andb_true_iff in E1. lia.
  - destruct ((- n <=? index) && (index <? 0)) eqn:E2; [| discriminate].
    intros H. inversion H. apply andb_true_iff in E2. lia.
Qed.

Lemma py_index_in_range (n index : Z) :
  0 <= index < n -> py_index n index = Some (Z.to_nat index).
Proof.
  intros H. unfold py_index.
  replace ((0 <=? index) && (index <? n)) with true; [reflexivity |].
  symmetry. apply andb_true_iff. lia.
Qed.

Lemma _edit_task_tasks (m m' : TaskManager) (index : Z) (te de dle : string) :
  _edit_task m index te de dle = Some m' ->
  exists i : nat,
    py_index (len (_tasks m)) index = Some i
    /\ _tasks m' = alter (edit_fields te de dle) i (_tasks m).
Proof.
  unfold _edit_task. destruct (py_index (len (_tasks m)) index) as [i |]; [| discriminate].
  intros H. inversion H. exists i. split; [reflexivity |].
  apply save_tasks_tasks.
Qed.

End Positions.

(** X1. Deleting at a position in range removes that one task: the
    list is one shorter, the tasks before the position stay where they
    were and every task after it moves one position down. *)
Theorem delete_task_removes_one (m : TaskManager) (p : Z) :
  0 <= p < len (_tasks m) ->
  len (_tasks (delete_task m p)) = len (_tasks m) - 1
  /\ (forall i : nat, (i < Z.to_nat p)%nat ->
        _tasks (delete_task m p) !! i = _tasks m !! i)
  /\ (forall i : nat, (Z.to_nat p <= i)%nat ->
        _tasks (delete_task m p) !! i = _tasks m !! S i).
Proof.
  intros H. rewrite (delete_task_tasks _ _ H). split; [| split].
  - unfold len. rewrite length_delete by (apply in_range_lookup; exact H).
    unfold len in H. lia.
  - intros i Hi. apply list_lookup_delete_lt. exact Hi.
  - intros i Hi. apply list_lookup_delete_ge. exact Hi.
Qed.

Lemma delete_task_removes_one_witness :
  0 <= 0 < len (_tasks (mkTaskManager [task_a; task_b] (mkDisk Absent true)))
  /\ len (_tasks (delete_task (mkTaskManager [task_a; task_b] (mkDisk Absent true)) 0)) = 2 - 1.
Proof.
  split; [unfold len; simpl; lia |].
  apply (delete_task_removes_one (mkTaskManager [task_a; task_b] (mkDisk Absent true)) 0).
  unfold len; simpl; lia.
Defined.

(** X2. Toggling at a position in range flips the completion flag of
    the task there and nothing else: its other attributes, every other
    task and the order stay as they were. *)
Theorem toggle_task_flips_one (m : TaskManager) (p : Z) :
  0 <= p < len (_tasks m) ->
  exists t : DeadlineTask,
    _tasks m !! Z.to_nat p = Some t
    /\ _tasks (toggle_task m p) !! Z.to_nat p
       = Some (mkDeadlineTask
                 (mkTask (task_id t) (title t) (description t) (category t)
                         (negb (is_completed t)) (created_date t))
                 (deadline t))
    /\ (forall i : nat, i <> Z.to_nat p ->
          _tasks (toggle_task m p) !! i = _tasks m !! i)
    /\ length (_tasks (toggle_task m p)) = length (_tasks m).
Proof.
  intros H. destruct (in_range_lookup _ _ H) as [t Ht]. exists t.
  rewrite (toggle_task_tasks _ _ H). split; [exact Ht | split; [| split]].
  - rewrite list_lookup_alter_eq, Ht. reflexivity.
  - intros i Hi. apply list_lookup_alter_ne. congruence.
  - apply length_alter.
Qed.

Lemma toggle_task_flips_one_witness :
  0 <= 1 < len (_tasks (mkTaskManager [task_a; task_b] (mkDisk Absent true)))
  /\ exists t : DeadlineTask,
       _tasks (mkTaskManager [task_a; task_b] (mkDisk Absent true)) !! Z.to_nat 1 = Some t.
Proof.
  split; [unfold len; simpl; lia |].
  destruct (toggle_task_flips_one (mkTaskManager [task_a; task_b] (mkDisk Absent true)) 1)
    as (t & Ht & _); [unfold len; simpl; lia |].
  exists t. exact Ht.
Defined.



(** X5. Editing the task at a position in range is not validated and
    always succeeds: whatever the three entries hold, empty or not a
    date, the task gets their stripped contents as title, description
    and deadline; its id, category, completion flag and creation date,
    and every other task, stay as they were. *)
Theorem _edit_task_overwrites_unchecked (m : TaskManager) (p : Z)
    (title_entry desc_entry deadline_entry : string) :
  0 <= p < len (_tasks m) ->
  exists (m' : TaskManager) (t : DeadlineTask),
    _edit_task m p title_entry desc_entry deadline_entry = Some m'
    /\ _tasks m !! Z.to_nat p = Some t
    /\ _tasks m' !! Z.to_nat p
       = Some (mkDeadlineTask
                 (mkTask (task_id t) (PyStr.strip title_entry) (PyStr.strip desc_entry)
                         (category t) (is_completed t) (created_date t))
                 (PyStr.strip deadline_entry))
    /\ (forall i : nat, i <> Z.to_nat p -> _tasks m' !! i = _tasks m !! i)
    /\ length (_tasks m') = length (_tasks m).
Proof.
  intros H. destruct (in_range_lookup _ _ H) as [t Ht].
  unfold _edit_task. rewrite (py_index_in_range _ _ H).
  eexists. exists t. split; [reflexivity |]. rewrite save_tasks_tasks. simpl _tasks.
  split; [exact Ht | split; [| split]].
  - rewrite list_lookup_alter_eq, Ht. reflexivity.
  - intros i Hi. apply list_lookup_alter_ne. congruence.
  - apply length_alter.
Qed.

Lemma _edit_task_overwrites_unchecked_witness :
  0 <= 0 < len (_tasks (mkTaskManager [task_a; task_b] (mkDisk Absent true)))
  /\ exists m' : TaskManager,
       _edit_task (mkTaskManager [task_a; task_b] (mkDisk Absent true)) 0 "  " "" "soon"
       = Some m'
       /\ title <$> _tasks m' !! 0%nat = Some ""
       /\ deadline <$> _tasks m' !! 0%nat = Some "soon".
Proof.
  split; [unfold len; simpl; lia |].
  destruct (_edit_task_overwrites_unchecked
              (mkTaskManager [task_a; task_b] (mkDisk Absent true)) 0 "  " "" "soon")
    as (m' & t & Hm & _ & Hp & _); [unfold len; simpl; lia |].
  exists m'. split; [exact Hm |]. change (Z.to_nat 0) with 0%nat in Hp.
  rewrite Hp. split; reflexivity.
Defined.

(** X6. An edit changes neither the ids nor the completion flags: the
    id the next task will get and the progress figures are the same
    before and after it. *)
Theorem _edit_task_keeps_ids_and_progress (m m' : TaskManager) (index : Z)
    (title_entry desc_entry deadline_entry : string) :
  _edit_task m index title_entry desc_entry deadline_entry = Some m' ->
  map task_id (_tasks m') = map task_id (_tasks m)
  /\ next_task_id (_tasks m') = next_task_id (_tasks m)
  /\ refresh_progress (_tasks m') = refresh_progress (_tasks m).
Proof.
  intros H. destruct (_edit_task_tasks _ _ _ _ _ _ H) as (i & _ & ->).
  assert (Hid : map task_id (alter (edit_fields title_entry desc_entry deadline_entry) i (_tasks m))
                = map task_id (_tasks m)) by (apply map_alter_same; reflexivity).
  split; [exact Hid | split].
  - unfold next_task_id. rewrite Hid. reflexivity.
  - unfold refresh_progress, len. rewrite length_alter.
    rewrite (count_done_map _ (_tasks m)); [reflexivity |].
    apply map_alter_same. reflexivity.
Qed.

Lemma _edit_task_keeps_ids_and_progress_witness :
  exists m' : TaskManager,
    _edit_task (mkTaskManager [task_a; task_b] (mkDisk Absent true)) 1 "x" "y" "z" = Some m'
    /\ map task_id (_tasks m') = [1; 2].
Proof.
  eexists. split; [reflexivity |].
  apply (_edit_task_keeps_ids_and_progress
           (mkTaskManager [task_a; task_b] (mkDisk Absent true)) _ 1 "x" "y" "z").
  reflexivity.
Defined.

(** ** Sessions: what every sequence of actions keeps *)

Section Sessions.

(** An action changes nothing, or replaces the task list and rewrites
    the whole file. *)
Lemma perform_cases (m : TaskManager) (a : action) :
  perform m a = m
  \/ exists ts : list DeadlineTask,
       perform m a = save_tasks {| _tasks := ts; _file := _file m |}.
Proof.
  destruct a as [now te de c dle | index confirmed | index | index te de dle]; simpl.
  - destruct (_add_task_cases now m te de c dle) as [-> | ->]; [left; reflexivity |].
    right. eexists. reflexivity.
  - unfold _delete_task. destruct (py_index _ _); simpl; [| left; reflexivity].
    destruct confirmed; [| left; reflexivity].
    unfold delete_task. destruct ((0 <=? index) && _); [| left; reflexivity].
    right. eexists. reflexivity.
  - unfold _toggle_task, toggle_task. destruct ((0 <=? index) && _); [| left; reflexivity].
    right. eexists. reflexivity.
  - unfold _edit_task. destruct (py_index _ _); simpl; [| left; reflexivity].
    right. eexists. reflexivity.
Qed.

Lemma perform_in_sync (now : PyDate.datetime) (m : TaskManager) (a : action) :
  writable (_file m) = true -> in_sync now m ->
  writable (_file (perform m a)) = true /\ in_sync now (perform m a).
Proof.
  intros Hw Hs. destruct (perform_cases m a) as [-> | [ts ->]]; [split; assumption |].
  split.
  - unfold save_tasks. simpl. rewrite Hw. reflexivity.
  - unfold in_sync. rewrite load_after_save by exact Hw.
    rewrite save_tasks_tasks. reflexivity.
Qed.

Lemma toggle_task_ids (m : TaskManager) (p : Z) :
  map task_id (_tasks (toggle_task m p)) = map task_id (_tasks m).
Proof.
  unfold toggle_task. destruct ((0 <=? p) && _); [| reflexivity].
  rewrite save_tasks_tasks. simpl. apply map_alter_same. reflexivity.
Qed.

Lemma delete_task_ids (m : TaskManager) (p : Z) :
  map task_id (_tasks (delete_task m p)) `sublist_of` map task_id (_tasks m).
Proof.
  unfold delete_task. destruct ((0 <=? p) && _); [| reflexivity].
  rewrite save_tasks_tasks. simpl. rewrite map_delete. apply sublist_delete.
Qed.

Lemma perform_nodup (m : TaskManager) (a : action) :
  NoDup (map task_id (_tasks m)) -> NoDup (map task_id (_tasks (perform m a))).
Proof.
  intros Hn.
  destruct a as [now te de c dle | index confirmed | index | index te de dle]; simpl.
  - destruct (_add_task_cases now m te de c dle) as [-> | ->]; [exact Hn |].
    rewrite add_task_tasks, map_app. simpl. apply NoDup_app. split; [exact Hn | split].
    + intros x Hx Hx'. apply list_elem_of_singleton in Hx'. subst x.
      pose proof (next_task_id_above (_tasks m)) as Ha.
      rewrite Forall_forall in Ha. apply Ha in Hx. unfold task_id in Hx. simpl in Hx. lia.
    + apply NoDup_singleton.
  - unfold _delete_task. destruct (py_index _ _); simpl; [| exact Hn].
    destruct confirmed; [| exact Hn].
    eapply sublist_NoDup; [exact Hn | apply delete_task_ids].
  - unfold _toggle_task. rewrite toggle_task_ids. exact Hn.
  - destruct (_edit_task m index te de dle) as [m' |] eqn:E; simpl; [| exact Hn].
    destruct (_edit_task_tasks _ _ _ _ _ _ E) as (i & _ & ->).
    rewrite map_alter_same by reflexivity. exact Hn.
Qed.

(** What [_add_task] has checked when it adds a task. *)
Lemma _add_task_well_formed (now : PyDate.datetime) (m : TaskManager)
    (te de c dle : string) :
  snd (_add_task now m te de c dle) = m
  \/ exists task : DeadlineTask,
       snd (_add_task now m te de c dle) = add_task m task /\ well_formed task.
Proof.
  unfold _add_task.
  destruct (PyStr.truthy (PyStr.strip te)) eqn:Et; simpl; [| auto].
  destruct (PyStr.truthy (PyStr.strip dle)) eqn:Ed; simpl; [| auto].
  destruct (PyDate.strptime_dmY (PyStr.strip dle)) eqn:Ep; simpl; [| auto].
  right. eexists. split; [reflexivity |]. split.
  - change (PyStr.strip te <> ""). intros H. apply truthy_false in H. congruence.
  - change (PyDate.strptime_dmY (PyStr.strip dle) <> None). congruence.
Qed.

Lemma perform_well_formed (m : TaskManager) (a : action) :
  is_edit a = false ->
  Forall well_formed (_tasks m) -> Forall well_formed (_tasks (perform m a)).
Proof.
  intros Ha Hf.
  destruct a as [now te de c dle | index confirmed | index | index te de dle];
    simpl in *; [| | | discriminate].
  - destruct (_add_task_well_formed now m te de c dle) as [-> | (task & -> & Hw)];
      [exact Hf |].
    rewrite add_task_tasks. apply Forall_app. split; [exact Hf |].
    constructor; [exact Hw | constructor].
  - unfold _delete_task. destruct (py_index _ _); simpl; [| exact Hf].
    destruct confirmed; [| exact Hf].
    unfold delete_task. destruct ((0 <=? index) && _); [| exact Hf].
    rewrite save_tasks_tasks. simpl. apply Forall_delete. exact Hf.
  - unfold _toggle_task, toggle_task. destruct ((0 <=? index) && _); [| exact Hf].
    rewrite save_tasks_tasks. simpl. apply Forall_alter; [exact Hf |].
    intros t _ Ht. exact Ht.
Qed.

End Sessions.

(** X7. The file mirrors the memory: starting from a manager whose file
    can be written and loads to its task list, after every sequence of
    additions, deletions (confirmed or not), toggles and edits the file
    still loads to exactly the tasks in memory: same ids, titles,
    descriptions, deadlines, categories and completion flags, in the
    same order. *)
Theorem session_file_in_sync (now : PyDate.datetime) (acts : list action)
    (m : TaskManager) :
  writable (_file m) = true -> in_sync now m ->
  in_sync now (session acts m).
Proof.
  revert m. induction acts as [|a acts IH]; intros m Hw Hs; simpl; [exact Hs |].
  destruct (perform_in_sync now m a Hw Hs) as [Hw' Hs']. apply IH; assumption.
Qed.

Lemma session_file_in_sync_witness :
  writable (_file (empty_manager true)) = true
  /\ in_sync now0 (empty_manager true)
  /\ in_sync now0
       (session [ActAdd now0 "a" "" "Umum" "25-12-2026"; ActToggle 0;
                 ActEdit 0 "b" "c" "d"; ActDelete 5 true]
                (empty_manager true)).
Proof.
  split; [reflexivity |]. split; [reflexivity |].
  apply (session_file_in_sync now0
           [ActAdd now0 "a" "" "Umum" "25-12-2026"; ActToggle 0;
            ActEdit 0 "b" "c" "d"; ActDelete 5 true]
           (empty_manager true)); reflexivity.
Defined.

(** X8. Ids stay distinct: if no two tasks of the store share an id
    (for instance a store loaded from a file, ids in any order), then
    after every sequence of additions, deletions, toggles and edits no
    two tasks share an id. *)
Theorem session_keeps_ids_distinct (acts : list action) (m : TaskManager) :
  NoDup (map task_id (_tasks m)) ->
  NoDup (map task_id (_tasks (session acts m))).
Proof.
  revert m. induction acts as [|a acts IH]; intros m Hn; simpl; [exact Hn |].
  apply IH. apply perform_nodup. exact Hn.
Qed.

Lemma session_keeps_ids_distinct_witness :
  NoDup (map task_id (_tasks (mkTaskManager [task_b; task_a] (mkDisk Absent true))))
  /\ NoDup (map task_id
             (_tasks (session [ActAdd now0 "c" "" "Umum" "25-12-2026"; ActDelete 0 true]
                              (mkTaskManager [task_b; task_a] (mkDisk Absent true))))).
Proof.
  assert (H : NoDup (map task_id
                       (_tasks (mkTaskManager [task_b; task_a] (mkDisk Absent true))))).
  { simpl. apply NoDup_cons. split; [| apply NoDup_singleton].
    intros Hin. apply list_elem_of_singleton in Hin. discriminate. }
  split; [exact H |].
  apply (session_keeps_ids_distinct
           [ActAdd now0 "c" "" "Umum" "25-12-2026"; ActDelete 0 true]
           (mkTaskManager [task_b; task_a] (mkDisk Absent true)) H).
Defined.

(** X9. As long as nothing is edited, every task in the store has what
    [_add_task] checks: a title that is not empty and a deadline that
    parses as DD-MM-YYYY. Additions, deletions and toggles keep it. *)
Theorem session_without_edit_keeps_well_formed (acts : list action)
    (m : TaskManager) :
  forallb (fun a => negb (is_edit a)) acts = true ->
  Forall well_formed (_tasks m) ->
  Forall well_formed (_tasks (session acts m)).
Proof.
  revert m. induction acts as [|a acts IH]; intros m Ha Hf; simpl; [exact Hf |].
  simpl in Ha. apply andb_true_iff in Ha. destruct Ha as [Ha Hacts].
  apply IH; [exact Hacts |]. apply perform_well_formed; [| exact Hf].
  apply negb_true_iff. exact Ha.
Qed.

Lemma session_without_edit_keeps_well_formed_witness :
  forallb (fun a => negb (is_edit a))
          [ActAdd now0 "a" "" "Umum" "25-12-2026"; ActToggle 0; ActDelete 3 true] = true
  /\ Forall well_formed (_tasks (empty_manager true))
  /\ Forall well_formed
       (_tasks (session [ActAdd now0 "a" "" "Umum" "25-12-2026"; ActToggle 0;
                         ActDelete 3 true]
                        (empty_manager true))).
Proof.
  split; [reflexivity |]. split; [constructor |].
  apply (session_without_edit_keeps_well_formed
           [ActAdd now0 "a" "" "Umum" "25-12-2026"; ActToggle 0; ActDelete 3 true]
           (empty_manager true)); [reflexivity | constructor].
Defined.

(** ** More on the search filter *)

Section Search.

Import PyStr.

Lemma is_space_lower_char (c : ascii) : is_space (lower_char c) = is_space c.
Proof. destruct c as [[] [] [] [] [] [] [] []]; reflexivity. Qed.

Lemma lower_char_idempotent (c : ascii) : lower_char (lower_char c) = lower_char c.
Proof. destruct c as [[] [] [] [] [] [] [] []]; reflexivity. Qed.

Lemma lower_idempotent (s : string) : lower (lower s) = lower s.
Proof.
  induction s as [|c s IH]; [reflexivity |].
  cbn [lower]. rewrite lower_char_idempotent, IH. reflexivity.
Qed.

Lemma lstrip_lower (s : string) : lstrip (lower s) = lower (lstrip s).
Proof.
  induction s as [|c s IH]; [reflexivity |].
  cbn [lower lstrip]. rewrite is_space_lower_char.
  destruct (is_space c); [exact IH | reflexivity].
Qed.

Lemma rstrip_lower (s : string) : rstrip (lower s) = lower (rstrip s).
Proof.
  induction s as [|c s IH]; [reflexivity |].
  cbn [lower rstrip]. rewrite IH, is_space_lower_char.
  destruct (rstrip s) as [|c' r]; cbn [lower].
  - destruct (is_space c); reflexivity.
  - reflexivity.
Qed.

Lemma strip_lower (s : string) : strip (lower s) = lower (strip s).
Proof. unfold strip. rewrite lstrip_lower, rstrip_lower. reflexivity. Qed.

(** What [lstrip] returns does not start with a space, and [rstrip]
    keeps the first character of a text that does not start with one. *)
Lemma lstrip_head (s : string) :
  lstrip s = "" \/ exists c r, lstrip s = String c r /\ is_space c = false.
Proof.
  induction s as [|c s IH]; [left; reflexivity |].
  cbn [lstrip]. destruct (is_space c) eqn:E; [exact IH |].
  right. exists c, s. split; [reflexivity | exact E].
Qed.

Lemma rstrip_head (c : ascii) (r : string) :
  is_space c = false -> exists r', rstrip (String c r) = String c r'.
Proof.
  intros E. cbn [rstrip]. rewrite E. destruct (rstrip r); eauto.
Qed.

Lemma rstrip_idempotent (s : string) : rstrip (rstrip s) = rstrip s.
Proof.
  induction s as [|c s IH]; [reflexivity |].
  cbn [rstrip]. destruct (rstrip s) as [|c' r] eqn:E.
  - destruct (is_space c) eqn:Ec; [reflexivity |].
    cbn [rstrip]. rewrite Ec. reflexivity.
  - cbn [rstrip]. cbn [rstrip] in IH. rewrite IH. reflexivity.
Qed.

Lemma strip_idempotent (s : string) : strip (strip s) = strip s.
Proof.
  unfold strip. destruct (lstrip_head s) as [E | (c & r & E & Ec)]; rewrite E.
  - reflexivity.
  - destruct (rstrip_head c r Ec) as [r' E']. rewrite E'.
    cbn [lstrip]. rewrite Ec. rewrite <- E'. apply rstrip_idempotent.
Qed.

Lemma contains_nothing (x : string) : contains x "" = true -> x = "".
Proof.
  intros H. apply contains_infix in H. destruct H as (a & b & H).
  destruct a; [destruct x; [reflexivity | discriminate] | discriminate].
Qed.

Lemma passes_narrower (q1 q2 : string) (t : DeadlineTask) :
  contains q1 q2 = true -> passes q2 t = true -> passes q1 t = true.
Proof.
  unfold passes. intros Hq H. destruct q1 as [|c q1]; [reflexivity |].
  simpl negb. rewrite orb_false_l. apply orb_true_iff in H. destruct H as [H | H].
  - apply negb_true_iff, truthy_false in H. subst q2.
    apply contains_nothing in Hq. discriminate.
  - eapply contains_trans; eassumption.
Qed.

End Search.

(** X11. Each row is a valid handle: the position a row carries is in
    range and holds the task the row shows, so toggling or deleting at
    that position acts on that very task. *)
Theorem shown_row_is_valid_handle (now : PyDate.datetime) (x : string)
    (m : TaskManager) (i : Z) (t : DeadlineTask) :
  (i, t) ∈ shown (refresh_rows now x (_tasks m)) ->
  0 <= i < len (_tasks m)
  /\ _tasks m !! Z.to_nat i = Some t
  /\ _tasks (toggle_task m i) !! Z.to_nat i = Some (toggle_status t)
  /\ _tasks (delete_task m i) = delete (Z.to_nat i) (_tasks m).
Proof.
  intros H. unfold refresh_rows in H. apply populate_elem in H.
  destruct H as (Hi & Hl & _). rewrite Z.sub_0_r in Hl.
  assert (Hr : 0 <= i < len (_tasks m)).
  { split; [exact Hi |]. apply lookup_lt_Some in Hl. unfold len. lia. }
  split; [exact Hr | split; [exact Hl | split]].
  - rewrite (toggle_task_tasks _ _ Hr), list_lookup_alter_eq, Hl. reflexivity.
  - apply delete_task_tasks. exact Hr.
Qed.

Lemma shown_row_is_valid_handle_witness :
  (1, task_b) ∈ shown (refresh_rows now0 "susu"
                         (_tasks (mkTaskManager [task_a; task_b] (mkDisk Absent true))))
  /\ _tasks (delete_task (mkTaskManager [task_a; task_b] (mkDisk Absent true)) 1)
     = [task_a].
Proof.
  assert (H : (1, task_b) ∈ shown (refresh_rows now0 "susu"
                (_tasks (mkTaskManager [task_a; task_b] (mkDisk Absent true))))).
  { vm_compute. apply list_elem_of_here. }
  split; [exact H |].
  apply (shown_row_is_valid_handle now0 "susu"
           (mkTaskManager [task_a; task_b] (mkDisk Absent true)) 1 task_b H).
Defined.

(** X12. Typing more never shows more: when the prepared search text
    (stripped, lower-cased) of one search is contained in that of
    another, every row of the second search is a row of the first. *)
Theorem longer_search_shows_fewer (now : PyDate.datetime) (x1 x2 : string)
    (tasks : list DeadlineTask) (i : Z) (t : DeadlineTask) :
  PyStr.contains (PyStr.lower (PyStr.strip x1)) (PyStr.lower (PyStr.strip x2)) = true ->
  (i, t) ∈ shown (refresh_rows now x2 tasks) ->
  (i, t) ∈ shown (refresh_rows now x1 tasks).
Proof.
  intros Hq H. unfold refresh_rows in *. apply populate_elem in H.
  destruct H as (Hi & Hl & Hp). apply populate_elem.
  split; [exact Hi | split; [exact Hl |]].
  eapply passes_narrower; eassumption.
Qed.

Lemma longer_search_shows_fewer_witness :
  PyStr.contains (PyStr.lower (PyStr.strip "Su")) (PyStr.lower (PyStr.strip " susu ")) = true
  /\ (1, task_b) ∈ shown (refresh_rows now0 " susu " [task_a; task_b])
  /\ (1, task_b) ∈ shown (refresh_rows now0 "Su" [task_a; task_b]).
Proof.
  assert (H : (1, task_b) ∈ shown (refresh_rows now0 " susu " [task_a; task_b])).
  { vm_compute. apply list_elem_of_here. }
  split; [reflexivity |]. split; [exact H |].
  apply (longer_search_shows_fewer now0 "Su" " susu " [task_a; task_b] 1 task_b);
    [reflexivity | exact H].
Defined.

(** X13. The search ignores the case of the search text and the
    whitespace around it: the text, its lower-cased form and its
    stripped form give the same rows. *)
Theorem search_text_is_normalised (now : PyDate.datetime) (x : string)
    (tasks : list DeadlineTask) :
  refresh_rows now (PyStr.lower x) tasks = refresh_rows now x tasks
  /\ refresh_rows now (PyStr.strip x) tasks = refresh_rows now x tasks.
Proof.
  unfold refresh_rows. split.
  - rewrite strip_lower, lower_idempotent. reflexivity.
  - rewrite strip_idempotent. reflexivity.
Qed.

(** ** More on the status column and the progress figures *)

Section StatusAndProgress.

Import PyDate.

(** At midnight sharp nothing is floored away. *)
Lemma days_left_midnight (s : string) (d now : datetime) :
  strptime_dmY s = Some d ->
  seconds_of_day now * 1000000 + microsecond now = 0 ->
  days (sub d now) = toordinal d - toordinal now.
Proof.
  intros Hd Hnow. destruct (strptime_midnight _ _ Hd) as (Hh & Hm & Hs & Hu).
  rewrite days_sub. unfold instant, seconds_of_day in *.
  rewrite Hh, Hm, Hs, Hu.
  replace ((toordinal d - 1) * US_PER_DAY + (0 + 0 * 60 + 0 * 3600) * 1000000 + 0
           - ((toordinal now - 1) * US_PER_DAY
              + (second now + minute now * 60 + hour now * 3600) * 1000000
              + microsecond now))
    with ((toordinal d - toordinal now) * US_PER_DAY) by lia.
  apply Z.div_mul. unfold US_PER_DAY. lia.
Qed.

Lemma count_done_alter_toggle (l : list DeadlineTask) :
  forall (i : nat) (t : DeadlineTask),
    l !! i = Some t ->
    count_done (alter toggle_status i l)
    = count_done l + (if is_completed t then -1 else 1).
Proof.
  induction l as [|u l IH]; intros [|i] t H; simpl in H; try discriminate.
  - inversion H; subst. cbn [alter list_alter count_done].
    change (is_completed (toggle_status t)) with (negb (is_completed t)).
    destruct (is_completed t); simpl negb; cbv iota; lia.
  - cbn [alter list_alter count_done]. fold (alter toggle_status i l).
    rewrite (IH i t H). lia.
Qed.

Lemma percentage_sane_up_to_100 (d t : Z) :
  0 <= d <= t -> 1 <= t <= 100 -> percentage_sane (d, t) = true.
Proof.
  intros Hd Ht.
  assert (Hall : forallb percentage_sane (done_total_pairs 100) = true)
    by (vm_compute; reflexivity).
  rewrite forallb_forall in Hall. apply Hall.
  unfold done_total_pairs. apply in_flat_map. exists (Z.to_nat t). split.
  - apply in_seq. lia.
  - apply in_map_iff. exists (Z.to_nat d). split; [f_equal; lia | apply in_seq; lia].
Qed.

End StatusAndProgress.

(** X14. In calendar days: for a task that is not completed and whose
    deadline parses, once the clock is past midnight the task is urgent
    exactly when the deadline date is at most 3 days after today (or in
    the past); at midnight sharp, exactly when it is at most 2 days
    after today. *)
Theorem urgent_in_calendar_days (now : PyDate.datetime) (task : DeadlineTask)
    (due : PyDate.datetime) :
  is_completed task = false ->
  PyDate.strptime_dmY (deadline task) = Some due ->
  0 <= PyDate.seconds_of_day now * 1000000 + PyDate.microsecond now < PyDate.US_PER_DAY ->
  (status_of now task = Mendesak <->
   PyDate.toordinal due - PyDate.toordinal now
   <= (if PyDate.seconds_of_day now * 1000000 + PyDate.microsecond now =? 0 then 2 else 3)).
Proof.
  intros Hc Hd Hnow. unfold status_of. rewrite Hc, Hd.
  destruct (Z.eqb_spec (PyDate.seconds_of_day now * 1000000 + PyDate.microsecond now) 0)
    as [E | E].
  - rewrite (days_left_midnight _ _ _ Hd E).
    destruct (Z.ltb_spec (PyDate.toordinal due - PyDate.toordinal now) 3) as [Hlt | Hge];
      split; intros Hu; try reflexivity; try discriminate; lia.
  - rewrite (days_left_calendar _ _ _ Hd) by lia.
    destruct (Z.ltb_spec (PyDate.toordinal due - PyDate.toordinal now - 1) 3)
      as [Hlt | Hge];
      split; intros Hu; try reflexivity; try discriminate; lia.
Qed.

Lemma urgent_in_calendar_days_witness :
  is_completed task_a = false
  /\ PyDate.strptime_dmY (deadline task_a) = Some (PyDate.mkDatetime 2026 12 25 0 0 0 0)
  /\ 0 <= PyDate.seconds_of_day now0 * 1000000 + PyDate.microsecond now0 < PyDate.US_PER_DAY
  /\ (status_of now0 task_a = Mendesak <->
      PyDate.toordinal (PyDate.mkDatetime 2026 12 25 0 0 0 0) - PyDate.toordinal now0
      <= (if PyDate.seconds_of_day now0 * 1000000 + PyDate.microsecond now0 =? 0
          then 2 else 3)).
Proof.
  assert (H1 : is_completed task_a = false) by reflexivity.
  assert (H2 : PyDate.strptime_dmY (deadline task_a)
               = Some (PyDate.mkDatetime 2026 12 25 0 0 0 0)) by (vm_compute; reflexivity).
  assert (H3 : 0 <= PyDate.seconds_of_day now0 * 1000000 + PyDate.microsecond now0
               < PyDate.US_PER_DAY) by (vm_compute; split; congruence).
  split; [exact H1 | split; [exact H2 | split; [exact H3 |]]].
  exact (urgent_in_calendar_days now0 task_a _ H1 H2 H3).
Defined.

(** X15. Urgency does not go away by waiting: a task that is urgent at
    some time is urgent at every later time (until it is completed or
    edited). *)
Theorem urgent_stays_urgent (now later : PyDate.datetime) (task : DeadlineTask) :
  PyDate.instant now <= PyDate.instant later ->
  status_of now task = Mendesak ->
  status_of later task = Mendesak.
Proof.
  intros Ht. unfold status_of. destruct (is_completed task); [discriminate |].
  destruct (PyDate.strptime_dmY (deadline task)) as [due |]; [| discriminate].
  rewrite !days_left_below_3.
  destruct (Z.ltb_spec (PyDate.instant due - PyDate.instant now) (3 * PyDate.US_PER_DAY));
    [| discriminate].
  intros _.
  destruct (Z.ltb_spec (PyDate.instant due - PyDate.instant later) (3 * PyDate.US_PER_DAY));
    [reflexivity | lia].
Qed.

Lemma urgent_stays_urgent_witness :
  PyDate.instant now0 <= PyDate.instant (PyDate.mkDatetime 2026 11 5 8 0 0 0)
  /\ status_of now0 task_b = Selesai
  /\ status_of now0 (toggle_status task_b) = Mendesak
  /\ status_of (PyDate.mkDatetime 2026 11 5 8 0 0 0) (toggle_status task_b) = Mendesak.
Proof.
  assert (H1 : PyDate.instant now0 <= PyDate.instant (PyDate.mkDatetime 2026 11 5 8 0 0 0))
    by (vm_compute; congruence).
  assert (H2 : status_of now0 (toggle_status task_b) = Mendesak) by (vm_compute; reflexivity).
  split; [exact H1 | split; [vm_compute; reflexivity | split; [exact H2 |]]].
  exact (urgent_stays_urgent now0 _ (toggle_status task_b) H1 H2).
Defined.

(** X16. Toggling a task in range moves it between done and pending:
    the total stays, the number done goes up by one if the task was
    pending and down by one if it was done, and pending moves the other
    way. *)
Theorem toggle_task_moves_one (m : TaskManager) (p : Z) :
  0 <= p < len (_tasks m) ->
  exists t : DeadlineTask,
    _tasks m !! Z.to_nat p = Some t
    /\ total (refresh_progress (_tasks (toggle_task m p)))
       = total (refresh_progress (_tasks m))
    /\ done (refresh_progress (_tasks (toggle_task m p)))
       = done (refresh_progress (_tasks m)) + (if is_completed t then -1 else 1)
    /\ pending (refresh_progress (_tasks (toggle_task m p)))
       = pending (refresh_progress (_tasks m)) - (if is_completed t then -1 else 1).
Proof.
  intros H. destruct (in_range_lookup _ _ H) as [t Ht]. exists t.
  rewrite (toggle_task_tasks _ _ H). unfold refresh_progress, len. simpl.
  rewrite length_alter, (count_done_alter_toggle _ _ _ Ht).
  split; [exact Ht | repeat split; lia].
Qed.

Lemma toggle_task_moves_one_witness :
  0 <= 0 < len (_tasks (mkTaskManager [task_a; task_b] (mkDisk Absent true)))
  /\ exists t : DeadlineTask,
       _tasks (mkTaskManager [task_a; task_b] (mkDisk Absent true)) !! Z.to_nat 0 = Some t
       /\ done (refresh_progress
                  (_tasks (toggle_task (mkTaskManager [task_a; task_b] (mkDisk Absent true)) 0)))
          = done (refresh_progress [task_a; task_b]) + (if is_completed t then -1 else 1).
Proof.
  split; [unfold len; simpl; lia |].
  destruct (toggle_task_moves_one (mkTaskManager [task_a; task_b] (mkDisk Absent true)) 0)
    as (t & Ht & _ & Hd & _); [unfold len; simpl; lia |].
  exists t. split; [exact Ht | exact Hd].
Defined.

(** X17. For a store of 1 to 100 tasks the percentage shown lies between
    0 and 100, is 100 exactly when every task is done, is 0 exactly when
    none is, and is the integer part of the exact ratio
    [100 * done / total] or one less (the float product can fall just
    below an integer). *)
Theorem percentage_up_to_100_tasks (tasks : list DeadlineTask) :
  1 <= len tasks <= 100 ->
  let p := refresh_progress tasks in
  0 <= percentage p <= 100
  /\ (percentage p = 100 <-> done p = total p)
  /\ (percentage p = 0 <-> done p = 0)
  /\ (percentage p = 100 * done p / total p
      \/ percentage p = 100 * done p / total p - 1).
Proof.
  intros Hlen p. subst p. unfold refresh_progress. simpl.
  pose proof (count_done_bounds tasks) as Hb.
  pose proof (percentage_sane_up_to_100 _ _ Hb Hlen) as Hs.
  pose proof (percentage_near_exact _ _ Hb Hlen) as Hn.
  unfold percentage_sane in Hs. simpl fst in Hs. simpl snd in Hs.
  apply andb_true_iff in Hs. destruct Hs as [Hs H0].
  apply andb_true_iff in Hs. destruct Hs as [Hs H100].
  apply andb_true_iff in Hs. destruct Hs as [Hlo Hhi].
  apply Z.leb_le in Hlo. apply Z.leb_le in Hhi.
  apply Bool.eqb_prop in H0. apply Bool.eqb_prop in H100.
  split; [lia | split; [| split; [| exact Hn]]].
  - rewrite <- !Z.eqb_eq. rewrite H100. reflexivity.
  - rewrite <- !Z.eqb_eq. rewrite H0. reflexivity.
Qed.

Lemma percentage_up_to_100_tasks_witness :
  1 <= len [task_a; task_b] <= 100
  /\ 0 <= percentage (refresh_progress [task_a; task_b]) <= 100.
Proof.
  split; [unfold len; simpl; lia |].
  apply (percentage_up_to_100_tasks [task_a; task_b]). unfold len; simpl; lia.
Defined.

(** ** More on loading *)

Section MoreLoading.

Variable now : PyDate.datetime.

Lemma load_loop_loaded (items : list json) :
  forall (acc r : list LoadedTask),
    load_loop now items acc = Loaded r <->
    exists ts : list LoadedTask,
      r = (acc ++ ts)%list
      /\ Forall2 (fun item o => load_item now item = inr o) items ts.
Proof.
  induction items as [|item rest IH]; intros acc r; simpl.
  - split.
    + intros H. inversion H. exists []. split; [now rewrite app_nil_r | constructor].
    + intros (ts & -> & H). inversion H. now rewrite app_nil_r.
  - destruct (load_item now item) as [e | o] eqn:E.
    + split; [discriminate |].
      intros (ts & _ & H). inversion H; subst. congruence.
    + rewrite IH. split.
      * intros (ts & -> & H). exists (o :: ts).
        split; [now rewrite <- app_assoc | constructor; assumption].
      * intros (ts & -> & H). inversion H as [|? o' ? ts' Ho Hrest]; subst.
        assert (o' = o) by congruence. subst o'.
        exists ts'. split; [now rewrite <- app_assoc | exact Hrest].
Qed.

Lemma load_loop_raised (good : list json) (ts : list LoadedTask) :
  Forall2 (fun item o => load_item now item = inr o) good ts ->
  forall (bad : json) (rest : list json) (e : exn) (acc : list LoadedTask),
    load_item now bad = inl e ->
    load_loop now (good ++ bad :: rest) acc = Raised e (acc ++ ts).
Proof.
  induction 1 as [|item o good ts Ho Hrest IH]; intros bad rest e acc Hbad; simpl.
  - rewrite Hbad, app_nil_r. reflexivity.
  - rewrite Ho, (IH bad rest e (acc ++ [o])%list Hbad), <- app_assoc. reflexivity.
Qed.

End MoreLoading.

(** X18. A record of the file is accepted exactly when it is a JSON
    object that has the keys "id", "title" and "description": the
    values can be of any type, and "deadline", "category" and
    "completed" can be missing. Anything that is not an object is
    refused. *)
Theorem load_item_accepts_iff (now : PyDate.datetime) (item : json) :
  (exists o : LoadedTask, load_item now item = inr o) <->
  (exists m : gmap string json,
      item = JDict m
      /\ is_Some (m !! "id") /\ is_Some (m !! "title") /\ is_Some (m !! "description")).
Proof.
  split.
  - intros [o H]. destruct item as [| | | | | |m]; try discriminate.
    exists m. split; [reflexivity |]. unfold load_item, getitem in H.
    destruct (m !! "id"); [| discriminate].
    destruct (m !! "title"); [| discriminate].
    destruct (m !! "description"); [| discriminate].
    repeat split; eauto.
  - intros (m & -> & [i Hi] & [t Ht] & [d Hd]).
    unfold load_item, getitem. rewrite Hi, Ht, Hd. eexists. reflexivity.
Qed.

(** X19. For an accepted record the attributes of the task are the
    values found under "id", "title", "description", and under
    "deadline", "category", "completed" when they are there; a missing
    "deadline" gives the empty text, a missing "category" gives "Umum",
    a missing "completed" gives false. *)
Theorem load_item_values_and_defaults (now : PyDate.datetime)
    (m : gmap string json) (o : LoadedTask) :
  load_item now (JDict m) = inr o ->
  m !! "id" = Some (l_id o)
  /\ m !! "title" = Some (l_title o)
  /\ m !! "description" = Some (l_description o)
  /\ l_deadline o = default (JStr "") (m !! "deadline")
  /\ l_category o = default (JStr "Umum") (m !! "category")
  /\ l_completed o = default (JBool false) (m !! "completed").
Proof.
  unfold load_item, getitem, dict_get.
  destruct (m !! "id") as [i |]; [| discriminate].
  destruct (m !! "title") as [t |]; [| discriminate].
  destruct (m !! "description") as [d |]; [| discriminate].
  intros H. inversion H; subst. simpl.
  destruct (m !! "deadline"), (m !! "category"), (m !! "completed"); repeat split.
Qed.

Lemma load_item_values_and_defaults_witness :
  exists o : LoadedTask,
    load_item now0 (JDict (<["id" := JInt 7]> (<["title" := JStr "a"]>
                             (<["description" := JNull]> ∅)))) = inr o
    /\ l_deadline o = JStr "" /\ l_category o = JStr "Umum" /\ l_completed o = JBool false.
Proof.
  assert (H : load_item now0 (JDict (<["id" := JInt 7]> (<["title" := JStr "a"]>
                                       (<["description" := JNull]> ∅))))
              = inr (mkLoadedTask (JInt 7) (JStr "a") JNull (JStr "") (JStr "Umum")
                                  (JBool false) "2026-11-04"))
    by (vm_compute; reflexivity).
  eexists. split; [exact H |].
  destruct (load_item_values_and_defaults now0 _ _ H) as (_ & _ & _ & Hd & Hc & Hf).
  split; [exact Hd | split; [exact Hc | exact Hf]].
Defined.

(** X20. Loading a JSON list succeeds exactly when every record is
    accepted, and then it returns one task per record, in the order of
    the file: nothing is dropped, merged or reordered, and ids are not
    checked for duplicates. *)
Theorem load_tasks_succeeds_iff (now : PyDate.datetime) (items : list json)
    (w : bool) (ts : list LoadedTask) :
  load_tasks now (mkDisk (JsonDoc (JList items)) w) = Loaded ts <->
  Forall2 (fun item o => load_item now item = inr o) items ts.
Proof.
  unfold load_tasks. simpl. rewrite load_loop_loaded. simpl. split.
  - intros (ts' & -> & H). exact H.
  - intros H. exists ts. split; [reflexivity | exact H].
Qed.

(** X21. Loading stops at the first record that is refused: the
    exception leaves [load_tasks] with the tasks of the records before
    it already appended, and the records after it are never looked
    at. *)
Theorem load_tasks_stops_at_first_refusal (now : PyDate.datetime)
    (good : list json) (ts : list LoadedTask) (bad : json) (rest : list json)
    (e : exn) (w : bool) :
  Forall2 (fun item o => load_item now item = inr o) good ts ->
  load_item now bad = inl e ->
  load_tasks now (mkDisk (JsonDoc (JList (good ++ bad :: rest))) w) = Raised e ts.
Proof.
  intros Hgood Hbad. unfold load_tasks. simpl.
  rewrite (load_loop_raised now good ts Hgood bad rest e [] Hbad). reflexivity.
Qed.

Lemma load_tasks_stops_at_first_refusal_witness :
  Forall2 (fun item o => load_item now0 item = inr o)
          [JDict (to_dict task_a)] [as_loaded now0 task_a]
  /\ load_item now0 (JInt 3) = inl TypeError
  /\ load_tasks now0 (mkDisk (JsonDoc (JList ([JDict (to_dict task_a)]
                                               ++ JInt 3 :: [JDict (to_dict task_b)]))) true)
     = Raised TypeError [as_loaded now0 task_a].
Proof.
  assert (H : Forall2 (fun item o => load_item now0 item = inr o)
                      [JDict (to_dict task_a)] [as_loaded now0 task_a]).
  { constructor; [apply load_item_to_dict | constructor]. }
  split; [exact H | split; [reflexivity |]].
  apply (load_tasks_stops_at_first_refusal now0 _ _ (JInt 3) [JDict (to_dict task_b)]
           TypeError true H).
  reflexivity.
Defined.



(** ** Dates picked in the calendar *)

Section Calendar.

Import PyStr PyDate.

Lemma split_dash_no_dash (c : string) : no_dash c = true -> split_dash c = [c].
Proof.
  induction c as [|x c IH]; [reflexivity |].
  cbn [no_dash split_dash]. intros H. apply andb_true_iff in H. destruct H as [Hx Hc].
  apply negb_true_iff in Hx. rewrite Hx, (IH Hc). reflexivity.
Qed.

Lemma split_dash_app (a r : string) :
  no_dash a = true -> split_dash (a +:+ "-" +:+ r) = a :: split_dash r.
Proof.
  induction a as [|x a IH]; [reflexivity |].
  change (String x a +:+ "-" +:+ r) with (String x (a +:+ "-" +:+ r)).
  cbn [no_dash split_dash]. intros H. apply andb_true_iff in H. destruct H as [Hx Ha].
  apply negb_true_iff in Hx. rewrite Hx, (IH Ha). reflexivity.
Qed.

Lemma lstrip_app_head (a b : string) :
  starts_without_space a = true -> lstrip (a +:+ b) = a +:+ b.
Proof.
  destruct a as [|c a]; [discriminate |].
  change (String c a +:+ b) with (String c (a +:+ b)).
  cbn [starts_without_space lstrip]. intros H. apply negb_true_iff in H.
  rewrite H. reflexivity.
Qed.

Lemma rstrip_app_tail (a b : string) :
  starts_without_space (rstrip b) = true -> rstrip (a +:+ b) = a +:+ rstrip b.
Proof.
  intros Hb. induction a as [|c a IH]; [reflexivity |].
  change (String c a +:+ b) with (String c (a +:+ b)).
  change (String c a +:+ rstrip b) with (String c (a +:+ rstrip b)).
  cbn [rstrip]. rewrite IH.
  destruct (a +:+ rstrip b) as [|c' r] eqn:E; [| reflexivity].
  destruct a; [| discriminate]. change (rstrip b = "") in E.
  rewrite E in Hb. discriminate.
Qed.

Lemma Zrange_In (lo : Z) (n : nat) (x : Z) :
  lo <= x < lo + Z.of_nat n -> In x (Zrange lo n).
Proof.
  intros H. unfold Zrange. apply in_map_iff. exists (Z.to_nat (x - lo)).
  split; [lia | apply in_seq; lia].
Qed.

Lemma day_reads_back (d : Z) : 1 <= d <= 31 -> reads_back match_d 2 d = true.
Proof.
  intros H.
  assert (Hall : forallb (reads_back match_d 2) (Zrange 1 31) = true)
    by (vm_compute; reflexivity).
  rewrite forallb_forall in Hall. apply Hall. apply Zrange_In. lia.
Qed.

Lemma month_reads_back (m : Z) : 1 <= m <= 12 -> reads_back match_m 2 m = true.
Proof.
  intros H.
  assert (Hall : forallb (reads_back match_m 2) (Zrange 1 12) = true)
    by (vm_compute; reflexivity).
  rewrite forallb_forall in Hall. apply Hall. apply Zrange_In. lia.
Qed.

Lemma year_reads_back (y : Z) : 1 <= y <= 9999 -> reads_back match_Y 4 y = true.
Proof.
  intros H.
  assert (Hall : forallb (reads_back match_Y 4) (Zrange 1 (Z.to_nat 9999)) = true)
    by (vm_compute; reflexivity).
  rewrite forallb_forall in Hall. apply Hall. apply Zrange_In. lia.
Qed.

Lemma reads_back_parts (group : string -> option Z) (width : nat) (n : Z) :
  reads_back group width n = true ->
  no_dash (zero_pad width n) = true
  /\ starts_without_space (zero_pad width n) = true
  /\ starts_without_space (rstrip (zero_pad width n)) = true
  /\ rstrip (zero_pad width n) = zero_pad width n
  /\ group (zero_pad width n) = Some n.
Proof.
  unfold reads_back. intros H.
  repeat (apply andb_true_iff in H; destruct H as [H ?]).
  repeat split; try assumption.
  - apply String.eqb_eq. assumption.
  - destruct (group (zero_pad width n)) as [n' |]; [| discriminate].
    f_equal. apply Z.eqb_eq. assumption.
Qed.

Lemma valid_date_ranges (y m d : Z) :
  valid_date y m d = true -> 1 <= y <= 9999 /\ 1 <= m <= 12 /\ 1 <= d <= 31.
Proof.
  unfold valid_date. intros H.
  repeat (apply andb_true_iff in H; destruct H as [H ?]).
  assert (days_in_month y m <= 31).
  { unfold days_in_month. destruct (m =? 2); [destruct (is_leap y); lia |].
    destruct ((m =? 4) || (m =? 6) || (m =? 9) || (m =? 11)); lia. }
  lia.
Qed.

Lemma strptime_calendar_text (y m d : Z) :
  valid_date y m d = true ->
  strptime_dmY (calendar_text y m d) = Some (mkDatetime y m d 0 0 0 0).
Proof.
  intros Hv. destruct (valid_date_ranges _ _ _ Hv) as (Hy & Hm & Hd).
  destruct (reads_back_parts _ _ _ (day_reads_back d Hd)) as (Dd & _ & _ & _ & Gd).
  destruct (reads_back_parts _ _ _ (month_reads_back m Hm)) as (Dm & _ & _ & _ & Gm).
  destruct (reads_back_parts _ _ _ (year_reads_back y Hy)) as (Dy & _ & _ & _ & Gy).
  unfold strptime_dmY, calendar_text.
  rewrite (split_dash_app _ _ Dd), (split_dash_app _ _ Dm), (split_dash_no_dash _ Dy).
  rewrite Gd, Gm, Gy, Hv. reflexivity.
Qed.

Lemma starts_without_space_app (a b : string) :
  starts_without_space a = true -> starts_without_space (a +:+ b) = true.
Proof. destruct a; [discriminate | intros H; exact H]. Qed.

Lemma strip_calendar_text (y m d : Z) :
  valid_date y m d = true -> strip (calendar_text y m d) = calendar_text y m d.
Proof.
  intros Hv. destruct (valid_date_ranges _ _ _ Hv) as (Hy & Hm & Hd).
  destruct (reads_back_parts _ _ _ (day_reads_back d Hd)) as (_ & Sd & _ & _ & _).
  destruct (reads_back_parts _ _ _ (month_reads_back m Hm)) as (_ & Sm & _ & _ & _).
  destruct (reads_back_parts _ _ _ (year_reads_back y Hy)) as (_ & _ & Sy & Ry & _).
  assert (E3 : rstrip ("-" +:+ zero_pad 4 y) = "-" +:+ zero_pad 4 y).
  { rewrite rstrip_app_tail by exact Sy. rewrite Ry. reflexivity. }
  assert (E2 : rstrip (zero_pad 2 m +:+ "-" +:+ zero_pad 4 y)
               = zero_pad 2 m +:+ "-" +:+ zero_pad 4 y).
  { rewrite rstrip_app_tail by (rewrite E3; reflexivity). rewrite E3. reflexivity. }
  assert (E1 : rstrip ("-" +:+ zero_pad 2 m +:+ "-" +:+ zero_pad 4 y)
               = "-" +:+ zero_pad 2 m +:+ "-" +:+ zero_pad 4 y).
  { rewrite rstrip_app_tail
      by (rewrite E2; apply starts_without_space_app; exact Sm).
    rewrite E2. reflexivity. }
  unfold strip, calendar_text.
  rewrite (lstrip_app_head _ _ Sd).
  rewrite rstrip_app_tail by (rewrite E1; reflexivity).
  rewrite E1. reflexivity.
Qed.

End Calendar.

(** X23. Every date the calendar can hand over is accepted: the text
    DD-MM-YYYY of a valid date (two-digit day and month, four-digit
    year) parses back to that very date, and [_add_task] creates the
    task with that text as its deadline whenever the title is not
    blank. *)
Theorem calendar_date_is_accepted (now : PyDate.datetime) (mgr : TaskManager)
    (title_entry desc_entry category_cb : string) (y m d : Z) :
  PyDate.valid_date y m d = true ->
  PyStr.strip title_entry <> "" ->
  PyDate.strptime_dmY (calendar_text y m d) = Some (PyDate.mkDatetime y m d 0 0 0 0)
  /\ snd (_add_task now mgr title_entry desc_entry category_cb (calendar_text y m d))
     = add_task mgr
         (DeadlineTask_init now (next_task_id (_tasks mgr)) (PyStr.strip title_entry)
            (PyStr.strip desc_entry) (calendar_text y m d) category_cb).
Proof.
  intros Hv Ht. pose proof (strptime_calendar_text _ _ _ Hv) as Hp.
  split; [exact Hp |].
  unfold _add_task. rewrite (strip_calendar_text _ _ _ Hv), Hp.
  destruct (PyStr.strip title_entry) as [|c0 r0] eqn:Et; [congruence |].
  destruct (calendar_text y m d) as [|c1 r1] eqn:Ec; [discriminate |].
  reflexivity.
Qed.

Lemma calendar_date_is_accepted_witness :
  PyDate.valid_date 2024 2 29 = true
  /\ PyStr.strip " Ujian " <> ""
  /\ calendar_text 2024 2 29 = "29-02-2024"
  /\ PyDate.strptime_dmY (calendar_text 2024 2 29)
     = Some (PyDate.mkDatetime 2024 2 29 0 0 0 0).
Proof.
  assert (H1 : PyDate.valid_date 2024 2 29 = true) by reflexivity.
  assert (H2 : PyStr.strip " Ujian " <> "") by discriminate.
  split; [exact H1 | split; [exact H2 | split; [reflexivity |]]].
  apply (calendar_date_is_accepted now0 (empty_manager true) " Ujian " "" "Kuliah"
           2024 2 29 H1 H2).
Defined.

(** ** Categories *)

Section Categories.

Lemma mem_elem_of (x : Category.obj) (l : list Category.obj) :
  Category.mem x l = true <-> x ∈ l.
Proof.
  unfold Category.mem. rewrite existsb_exists. split.
  - intros (y & Hy & E). apply Pos.eqb_eq in E. subst y.
    apply list_elem_of_In. exact Hy.
  - intros H. exists x. split; [apply list_elem_of_In; exact H | apply Pos.eqb_refl].
Qed.

Lemma remove_first_sublist (x : Category.obj) (l : list Category.obj) :
  Category.remove_first x l `sublist_of` l.
Proof.
  induction l as [|y l IH]; simpl; [constructor |].
  destruct (Pos.eqb x y); [apply sublist_cons; reflexivity | apply sublist_skip; exact IH].
Qed.

Lemma remove_first_other (x y : Category.obj) (l : list Category.obj) :
  y <> x -> (y ∈ Category.remove_first x l <-> y ∈ l).
Proof.
  intros Hne. induction l as [|z l IH]; simpl; [reflexivity |].
  destruct (Pos.eqb_spec x z) as [-> | Hxz].
  - rewrite elem_of_cons. split; [auto | intros [E | H]; [congruence | exact H]].
  - rewrite !elem_of_cons, IH. reflexivity.
Qed.

Lemma remove_first_gone (x : Category.obj) (l : list Category.obj) :
  NoDup l -> x ∉ Category.remove_first x l.
Proof.
  induction 1 as [|z l Hz Hl IH]; simpl; [apply not_elem_of_nil |].
  destruct (Pos.eqb_spec x z) as [-> | Hxz]; [exact Hz |].
  rewrite elem_of_cons. intros [E | H]; [congruence | exact (IH H)].
Qed.

Lemma remove_first_snoc (x : Category.obj) (l : list Category.obj) :
  x ∉ l -> Category.remove_first x (l ++ [x]) = l.
Proof.
  induction l as [|z l IH]; intros H; simpl.
  - rewrite Pos.eqb_refl. reflexivity.
  - rewrite not_elem_of_cons in H. destruct H as [Hne Hl].
    destruct (Pos.eqb_spec x z) as [E | _]; [congruence |].
    rewrite (IH Hl). reflexivity.
Qed.

Lemma apply_nodup (c : Category.t) (k : Category.call) :
  NoDup (Category._tasks c) -> NoDup (Category._tasks (Category.apply c k)).
Proof.
  intros Hn. destruct k as [x | x]; simpl.
  - unfold Category.add_task.
    destruct (Category.mem x (Category._tasks c)) eqn:E; simpl; [exact Hn |].
    apply NoDup_app. split; [exact Hn | split; [| apply NoDup_singleton]].
    intros y Hy Hy'. apply list_elem_of_singleton in Hy'. subst y.
    apply mem_elem_of in Hy. congruence.
  - unfold Category.remove_task.
    destruct (Category.mem x (Category._tasks c)); simpl; [| exact Hn].
    eapply sublist_NoDup; [exact Hn | apply remove_first_sublist].
Qed.

Lemma apply_name (c : Category.t) (k : Category.call) :
  Category._name (Category.apply c k) = Category._name c.
Proof.
  destruct k as [x | x]; simpl.
  - unfold Category.add_task. destruct (negb _); reflexivity.
  - unfold Category.remove_task. destruct (Category.mem _ _); reflexivity.
Qed.

End Categories.

(** X24. A category never lists a task twice and never changes its
    name: after any sequence of [add_task] and [remove_task] calls on a
    new category the list holds each task at most once. *)
Theorem category_never_lists_twice (name : string) (calls : list Category.call) :
  NoDup (Category._tasks (fold_left Category.apply calls (Category.init name)))
  /\ Category._name (fold_left Category.apply calls (Category.init name)) = name.
Proof.
  assert (H : forall c : Category.t,
             NoDup (Category._tasks c) ->
             NoDup (Category._tasks (fold_left Category.apply calls c))
             /\ Category._name (fold_left Category.apply calls c) = Category._name c).
  { induction calls as [|k calls IH]; intros c Hn; simpl; [split; [exact Hn | reflexivity] |].
    destruct (IH (Category.apply c k) (apply_nodup c k Hn)) as [H1 H2].
    split; [exact H1 | rewrite H2; apply apply_name]. }
  apply (H (Category.init name)). apply NoDup_nil_2.
Qed.

(** X25. In a list without repetition [remove_task] takes the task out
    and [add_task] puts it in, and neither touches the membership of
    any other task. *)
Theorem category_membership (c : Category.t) (x : Category.obj) :
  NoDup (Category._tasks c) ->
  (x ∉ Category._tasks (Category.remove_task c x))
  /\ (x ∈ Category._tasks (Category.add_task c x))
  /\ (forall y : Category.obj, y <> x ->
        (y ∈ Category._tasks (Category.remove_task c x) <-> y ∈ Category._tasks c)
        /\ (y ∈ Category._tasks (Category.add_task c x) <-> y ∈ Category._tasks c)).
Proof.
  intros Hn. unfold Category.remove_task, Category.add_task.
  destruct (Category.mem x (Category._tasks c)) eqn:E; simpl.
  - split; [apply remove_first_gone; exact Hn |].
    split; [apply mem_elem_of; exact E |].
    intros y Hy. split; [apply remove_first_other; exact Hy | reflexivity].
  - split; [intros H; apply mem_elem_of in H; congruence |].
    split; [apply elem_of_app; right; apply list_elem_of_singleton; reflexivity |].
    intros y Hy. split; [reflexivity |].
    rewrite elem_of_app, list_elem_of_singleton. split; [intros [H | H]; [exact H | congruence] | auto].
Qed.

Lemma category_membership_witness :
  NoDup (Category._tasks (Category.mk "Kuliah" [3; 5; 8]%positive))
  /\ (5%positive ∉ Category._tasks
                     (Category.remove_task (Category.mk "Kuliah" [3; 5; 8]%positive)
                                           5%positive)).
Proof.
  assert (H : NoDup (Category._tasks (Category.mk "Kuliah" [3; 5; 8]%positive))).
  { apply (bool_decide_unpack _). vm_compute. exact I. }
  split; [exact H |].
  apply (category_membership (Category.mk "Kuliah" [3; 5; 8]%positive) 5%positive H).
Defined.

(** X26. Adding a task that is already listed changes nothing, and
    removing a task right after it was added to a category that did not
    list it gives the category back as it was; removing a task that is
    not listed changes nothing. *)
Theorem category_add_remove (c : Category.t) (x : Category.obj) :
  Category.add_task (Category.add_task c x) x = Category.add_task c x
  /\ (x ∉ Category._tasks c ->
      Category.remove_task (Category.add_task c x) x = c
      /\ Category.remove_task c x = c).
Proof.
  unfold Category.add_task, Category.remove_task.
  destruct (Category.mem x (Category._tasks c)) eqn:E; simpl.
  - rewrite E. simpl. split; [reflexivity |].
    intros H. exfalso. apply H. apply mem_elem_of. exact E.
  - assert (E' : Category.mem x (Category._tasks c ++ [x]) = true).
    { apply mem_elem_of. apply elem_of_app. right. apply list_elem_of_singleton. reflexivity. }
    rewrite E'. simpl. split; [reflexivity |].
    intros H. rewrite (remove_first_snoc _ _ H). destruct c; split; reflexivity.
Qed.

Lemma some_field_contains_shown_witness :
  [task_a; task_b] !! 1%nat = Some task_b
  /\ some_field_contains "SUSU" task_b = true
  /\ (Z.of_nat 1, task_b) ∈ shown (refresh_rows now0 "SUSU" [task_a; task_b]).
Proof.
  assert (H1 : [task_a; task_b] !! 1%nat = Some task_b) by reflexivity.
  assert (H2 : some_field_contains "SUSU" task_b = true) by reflexivity.
  split; [exact H1 | split; [exact H2 |]].
  exact (some_field_contains_shown now0 "SUSU" [task_a; task_b] 1 task_b H1 H2).
Defined.

(** ** The list and the status bar agree *)

Section ListAndBar.

Variable now : PyDate.datetime.

Lemma status_of_done (t : DeadlineTask) :
  (match status_of now t with Selesai => true | _ => false end) = is_completed t.
Proof.
  unfold status_of. destruct (is_completed t); [reflexivity |].
  destruct (PyDate.strptime_dmY (deadline t)); [| reflexivity].
  destruct (_ <? 3); reflexivity.
Qed.

Lemma populate_all_rows (tasks : list DeadlineTask) :
  forall idx : Z,
    length (populate now "" idx tasks) = length tasks
    /\ len (List.filter says_done (populate now "" idx tasks)) = count_done tasks.
Proof.
  induction tasks as [|t rest IH]; intros idx; [split; reflexivity |].
  rewrite populate_cons. change (passes "" t) with true. cbv iota.
  destruct (IH (idx + 1)) as [Hl Hd]. split; [simpl; rewrite Hl; reflexivity |].
  cbn [List.filter count_done]. unfold says_done at 1. cbn [row_status].
  rewrite status_of_done. unfold len in *.
  destruct (is_completed t); cbn [length]; lia.
Qed.

End ListAndBar.

(** X27. With an empty search the list and the status bar agree: there
    is one row per task, and the number of rows marked done is the
    number of done tasks of the status bar. *)
Theorem rows_agree_with_progress (now : PyDate.datetime) (tasks : list DeadlineTask) :
  len (refresh_rows now "" tasks) = total (refresh_progress tasks)
  /\ len (List.filter says_done (refresh_rows now "" tasks))
     = done (refresh_progress tasks).
Proof.
  unfold refresh_rows, refresh_progress. simpl total. simpl done.
  destruct (populate_all_rows now tasks 0) as [Hl Hd]. split.
  - unfold len. change (PyStr.lower (PyStr.strip "")) with "". rewrite Hl. reflexivity.
  - exact Hd.
Qed.
